(** * ozstar-jobsummary: the job summary aggregator and report renderer

    A shallow embedding of [src/summary.py] (class [JobSummary]) and of the
    metrics helpers of [memory.py], with the properties of the
    specification proved over it.

    Conventions of the embedding.
    - Python numbers are exact rationals ([Q]); [/] is Python's true
      division, which raises [ZeroDivisionError] on a zero divisor.
      Rounding of binary floating point is not modelled.
    - Python [str] is [string]; one [ascii] stands for one character.
      [len] and the multipliers of [str * n] are integers ([Z]).
    - A [dict] is a [gmap]; iteration over it follows [map_fold] and
      [map_to_list].
    - Exceptions are values of [exn], carried by [result].
    - Calls to the two external collaborators (the pyslurm accounting
      database and the Influx gateway object) are recorded in a trace, so
      that "which source was consulted" is a statement about the trace. *)

From Stdlib Require Import ZArith QArith Lia Bool Ascii.
From Stdlib Require Import DecimalString DecimalPos DecimalN.
From stdpp Require Import gmap strings list fin_maps.

Local Open Scope Z_scope.

(** ** Python primitives *)

Module Py.

Inductive exn : Type :=
  | ZeroDivisionError
  | KeyError (msg : string)
  | IndexError
  | ValueError
  | ExternalError (msg : string).

Inductive result (A : Type) : Type :=
  | Ok (a : A)
  | Raise (e : exn).
Arguments Ok {A} a.
Arguments Raise {A} e.

Definition rbind {A B} (r : result A) (k : A -> result B) : result B :=
  match r with
  | Ok a => k a
  | Raise e => Raise e
  end.

(** *** Numbers *)

(** Python's [a / b]. *)
Definition div (a b : Q) : result Q :=
  if Qeq_bool b 0 then Raise ZeroDivisionError else Ok (a / b)%Q.

(** Python's [a < b]. *)
Definition ltb (a b : Q) : bool :=
  (Qnum a * QDen b <? Qnum b * QDen a)%Z.

(** Truth value of an optional integer attribute: [None] and [0] are falsy. *)
Definition truthy (o : option Z) : bool :=
  match o with Some z => negb (z =? 0) | None => false end.

(** [max(l)] of a list of integers; [max([])] raises [ValueError]. *)
Definition max_list (l : list Z) : result Z :=
  match l with
  | [] => Raise ValueError
  | x :: xs => Ok (foldl Z.max x xs)
  end.

(** *** Sequences *)

(** [l[0]]. *)
Definition first_item {A} (l : list A) : result A :=
  match l with
  | x :: _ => Ok x
  | [] => Raise IndexError
  end.

(** [l[-1]]. *)
Definition last_item {A} (l : list A) : result A :=
  match last l with
  | Some x => Ok x
  | None => Raise IndexError
  end.

(** [d[k]] on a dict with string keys. *)
Definition getitem {V} (d : gmap string V) (k : string) : result V :=
  match d !! k with
  | Some v => Ok v
  | None => Raise (KeyError k)
  end.

(** *** Strings *)

Definition len (s : string) : Z := Z.of_nat (String.length s).

(** [c * n] for a one-character string [c]. *)
Definition str_mul (c : ascii) (n : Z) : string :=
  String.string_of_list_ascii (replicate (Z.to_nat n) c).

(** [c in s] for a one-character string [c]. *)
Fixpoint contains (c : ascii) (s : string) : bool :=
  match s with
  | EmptyString => false
  | String a s' => Ascii.eqb a c || contains c s'
  end.

(** [s.split(sep)] for a one-character separator. *)
Fixpoint split (sep : ascii) (s : string) : list string :=
  match s with
  | EmptyString => [EmptyString]
  | String a s' =>
      if Ascii.eqb a sep then EmptyString :: split sep s'
      else match split sep s' with
           | w :: ws => String a w :: ws
           | [] => [String a EmptyString]
           end
  end.

(** [sep.join(l)]. *)
Definition join (sep : string) (l : list string) : string :=
  String.concat sep l.

Fixpoint lstrip (c : ascii) (s : string) : string :=
  match s with
  | EmptyString => EmptyString
  | String a s' => if Ascii.eqb a c then lstrip c s' else s
  end.

Fixpoint rstrip (c : ascii) (s : string) : string :=
  match s with
  | EmptyString => EmptyString
  | String a s' =>
      match rstrip c s' with
      | EmptyString => if Ascii.eqb a c then EmptyString else String a EmptyString
      | r => String a r
      end
  end.

(** [s.strip(c)] for a one-character set. *)
Definition strip (c : ascii) (s : string) : string := rstrip c (lstrip c s).

(** [s.ljust(width)]. *)
Definition ljust (s : string) (width : Z) : string :=
  String.append s (str_mul " " (width - len s)).

(** [s.replace(c, by)] for a one-character pattern. *)
Fixpoint replace (c : ascii) (by_ : string) (s : string) : string :=
  match s with
  | EmptyString => EmptyString
  | String a s' =>
      if Ascii.eqb a c then String.append by_ (replace c by_ s')
      else String a (replace c by_ s')
  end.

Definition is_digit (a : ascii) : bool :=
  let n := nat_of_ascii a in (48 <=? n)%nat && (n <=? 57)%nat.

(** [s.isdigit()]: non-empty and made of digits. *)
Definition isdigit (s : string) : bool :=
  match s with
  | EmptyString => false
  | _ => forallb is_digit (String.list_ascii_of_string s)
  end.

(** White space as [int()] skips it around a number: tab to carriage
    return, and the blank. *)
Definition is_space (a : ascii) : bool :=
  let n := nat_of_ascii a in
  ((9 <=? n)%nat && (n <=? 13)%nat) || (n =? 32)%nat.

Fixpoint lstrip_space (s : string) : string :=
  match s with
  | EmptyString => EmptyString
  | String a s' => if is_space a then lstrip_space s' else s
  end.

Fixpoint rstrip_space (s : string) : string :=
  match s with
  | EmptyString => EmptyString
  | String a s' =>
      match rstrip_space s' with
      | EmptyString => if is_space a then EmptyString else String a EmptyString
      | r => String a r
      end
  end.

(** A non-empty run of decimal digits, as a number. *)
Definition digits_value (s : string) : option Z :=
  match s with
  | EmptyString => None
  | _ => (fun d => Z.of_N (N.of_uint d)) <$> NilEmpty.uint_of_string s
  end.

(** The characters of a number written with digit grouping: a single
    underscore between two characters is dropped; a leading, a trailing or
    a doubled underscore is refused. *)
Fixpoint ungroup_after (prev : ascii) (s : string) : option string :=
  match s with
  | EmptyString => if Ascii.eqb prev "_" then None else Some EmptyString
  | String a s' =>
      if Ascii.eqb a "_" then
        if Ascii.eqb prev "_" then None else ungroup_after a s'
      else String a <$> ungroup_after a s'
  end.

Definition ungroup (s : string) : option string :=
  match s with
  | EmptyString => Some EmptyString
  | String a _ => if Ascii.eqb a "_" then None else ungroup_after a s
  end.

(** The most digits [int()] converts (CPython's default limit). *)
Definition MAX_STR_DIGITS : Z := 4300.

(** An unsigned number: grouped digits, no more of them than the limit. *)
Definition number (s : string) : option Z :=
  digits ← ungroup s;
  if MAX_STR_DIGITS <? len digits then None else digits_value digits.

(** [int(s)] on a string: surrounding white space, an optional sign, then
    decimal digits, which single underscores may group. *)
Definition int (s : string) : result Z :=
  let body := rstrip_space (lstrip_space s) in
  let parsed :=
    match body with
    | String "-" ds => Z.opp <$> number ds
    | String "+" ds => number ds
    | _ => number body
    end in
  match parsed with
  | Some z => Ok z
  | None => Raise ValueError
  end.

(** [str(z)] of an integer. *)
Definition str (z : Z) : string :=
  if z <? 0 then String "-" (NilEmpty.string_of_uint (N.to_uint (Z.to_N (- z))))
  else NilEmpty.string_of_uint (N.to_uint (Z.to_N z)).

(** An optional integer inside an f-string. *)
Definition format (o : option Z) : string :=
  match o with
  | Some z => str z
  | None => "None"
  end.

Definition nl : ascii := ascii_of_nat 10.
Definition dquote : string := String (ascii_of_nat 34) EmptyString.

End Py.

#[global] Instance result_ret : MRet Py.result := @Py.Ok.
#[global] Instance result_bind : MBind Py.result := fun A B k r => Py.rbind r k.

Import Py.

(** ** Collaborators and the trace of calls to them *)

Record JobStatistics : Type := {
  max_resident_memory : Q;
  elapsed_cpu_time : Q;
  user_cpu_time : Q
}.

Record JobStep : Type := {
  step_stats : JobStatistics
}.

(** A [pyslurm.db.Job], as far as the code reads it. *)
Record Job : Type := {
  id : Z;
  array_id : option Z;
  array_task_id : option Z;
  state : string;
  num_nodes : Z;
  memory : Q;                      (* megabytes *)
  elapsed_time : option Q;         (* seconds *)
  time_limit : Q;                  (* minutes *)
  stats : JobStatistics;
  steps : list JobStep             (* the values of the steps mapping *)
}.

(** The accounting database: [pyslurm.db.Job.load(raw_id)] and
    [pyslurm.db.Jobs.load(JobFilter(ids=...))], the latter giving the
    values of the returned mapping in iteration order. *)
Record SlurmDb : Type := {
  Job_load : Z -> result Job;
  Jobs_load : list string -> result (list Job)
}.

(** The nested result of the filesystem query:
    filesystem, server role, field, then the key ["value"]. *)
Abbreviation lustre_data :=
  (gmap string (gmap string (gmap string (gmap string (list Q))))).

(** The metrics gateway object handed to [JobSummary]. *)
Record InfluxQuery : Type := {
  get_max_mem : string -> result (option Q);
  get_avg_cpu : string -> result (option Q);
  get_lustre_jobstats : string -> result lustre_data
}.

Inductive call : Type :=
  | DbJobsLoad (ids : list string)
  | DbJobLoad (raw_id : Z)
  | InfluxMaxMem (job_id : string)
  | InfluxAvgCpu (job_id : string)
  | InfluxLustre (job_id : string).

(** A computation together with the collaborator calls it made, oldest
    first. *)
Record traced (A : Type) : Type := Traced {
  trace : list call;
  outcome : result A
}.
Arguments Traced {A} trace outcome.
Arguments trace {A} t.
Arguments outcome {A} t.

Definition tbind {A B} (t : traced A) (k : A -> traced B) : traced B :=
  match outcome t with
  | Ok a => Traced (trace t ++ trace (k a)) (outcome (k a))
  | Raise e => Traced (trace t) (Raise e)
  end.

#[global] Instance traced_ret : MRet traced := fun A a => Traced [] (Ok a).
#[global] Instance traced_bind : MBind traced := fun A B k t => tbind t k.

(** A computation that calls no collaborator. *)
Definition pure {A} (r : result A) : traced A := Traced [] r.

(** A call to a collaborator, with its answer. *)
Definition calling {A} (c : call) (r : result A) : traced A := Traced [c] r.

(** The sum of the user CPU time over all execution steps, in the words
    of the specification. *)
Definition total_user_cpu (steps : list JobStep) : Q :=
  foldr (fun step total => (user_cpu_time (step_stats step) + total)%Q) 0%Q steps.

(** The gateway calls that serve the peak-memory and average-CPU fields. *)
Definition is_max_mem_call (c : call) : bool :=
  match c with InfluxMaxMem _ => true | _ => false end.

Definition is_avg_cpu_call (c : call) : bool :=
  match c with InfluxAvgCpu _ => true | _ => false end.

(** ** memory.py *)

Module Memory.

Definition SEARCH_WINDOW : string := "7d".

(** A table of an Influx result and its records. *)
Record FluxRecord : Type := { get_value : Q }.
Record FluxTable : Type := { records : list FluxRecord }.

(** The Flux text sent for the peak memory of a job. *)
Definition job_query (job_id : string) : string :=
  String nl "    from(bucket: " +:+ dquote +:+ "jobmon-stats" +:+ dquote +:+ ")"
  +:+ String nl "    |> range(start: -" +:+ SEARCH_WINDOW +:+ ")"
  +:+ String nl "    |> filter(fn: (r) => r[" +:+ dquote +:+ "_measurement"
  +:+ dquote +:+ "] == " +:+ dquote +:+ "job_max_memory" +:+ dquote +:+ ")"
  +:+ String nl "    |> filter(fn: (r) => r[" +:+ dquote +:+ "job_id"
  +:+ dquote +:+ "] == " +:+ dquote +:+ job_id +:+ dquote +:+ ")"
  +:+ String nl "    |> last()"
  +:+ String nl "    ".

Section WithInflux.

(** [influx.query] and [utils.bytesize] are imported by memory.py from
    modules outside the sources at hand. *)
Variable query : string -> result (list FluxTable).
Variable bytesize : string -> result Q.

(** [get_max_mem]: the last max-memory sample of the job in the search
    window, in bytes. *)
Definition get_max_mem (job_id : string) : result (option Q) :=
  job_results ← query (job_query job_id);
  if 0 <? Z.of_nat (length job_results) then
    table ← first_item job_results;
    record ← first_item (records table);
    Ok (Some (get_value record * 1024 ^ 2)%Q)
  else Ok None.

(** [get_req_mem]: requested memory per node from a sacct row. *)
Definition get_req_mem (sacct_data : gmap string string) : result Q :=
  text ← getitem sacct_data "req_mem";
  req_mem ← bytesize text;
  nodes_text ← getitem sacct_data "req_nodes";
  nodes ← int nodes_text;
  mem_per_node ← div req_mem (inject_Z nodes);
  Ok mem_per_node.

End WithInflux.

End Memory.

(** ** summary.py *)

Module Summary.

Definition UNFINISHED_STATES : list string :=
  ["PENDING"; "RUNNING"; "REQUEUED"; "RESIZING"; "SUSPENDED"].

(** [x not in l] on strings. *)
Definition not_in (x : string) (l : list string) : bool :=
  negb (existsb (String.eqb x) l).

(** The three totals kept per filesystem. *)
Record LustreTotals : Type := {
  total_read : Q;
  total_write : Q;
  total_iops : Q
}.

(** The [summary_data] dict. *)
Record SummaryData : Type := {
  sd_state : string;
  sd_req_mem : option Q;
  sd_max_mem : option Q;
  sd_elapsed_time : option Q;
  sd_time_limit : option Q;
  sd_avg_cpu : option Q;
  sd_lustre_stats : option (gmap string LustreTotals);
  sd_warnings : option (list string)
}.

(** The attributes of a [JobSummary] object. *)
Record JobSummary : Type := {
  job_id : string;
  raw_id : Z;
  db_data : Job;
  influxid : string;
  finished : bool;
  influxquery : option InfluxQuery;
  summary_data : SummaryData;
  warnings : list string;
  heading_width : Z
}.

(** [get_req_mem_bytes]: requested memory per node, in bytes. *)
Definition get_req_mem_bytes (self : JobSummary) : result Q :=
  if num_nodes (db_data self) =? 0 then Ok 0%Q
  else
    per_node ← div (memory (db_data self)) (inject_Z (num_nodes (db_data self)));
    Ok (per_node * 1024 ^ 2)%Q.

(** [get_max_mem_bytes]: peak memory of any node of the job, in bytes. *)
Definition get_max_mem_bytes (self : JobSummary) : traced (option Q) :=
  if finished self then
    mret (Some (max_resident_memory (stats (db_data self))))
  else
    match influxquery self with
    | Some gateway =>
        calling (InfluxMaxMem (influxid self)) (get_max_mem gateway (influxid self))
    | None => mret None
    end.

Definition get_elapsed_time_seconds (self : JobSummary) : Q :=
  match elapsed_time (db_data self) with
  | Some t => t
  | None => 0%Q
  end.

Definition get_time_limit_seconds (self : JobSummary) : Q :=
  (time_limit (db_data self) * 60)%Q.

(** [get_user_cpu_percentage]: user CPU time as a percentage. *)
Definition get_user_cpu_percentage (self : JobSummary) : traced (option Q) :=
  if finished self then
    if Qeq_bool (elapsed_cpu_time (stats (db_data self))) 0 then mret (Some 0%Q)
    else
      let user_cpu :=
        foldl (fun acc step => (acc + user_cpu_time (step_stats step))%Q) 0%Q
              (steps (db_data self)) in
      pure (ratio ← div user_cpu (elapsed_cpu_time (stats (db_data self)));
            Ok (Some (ratio * 100)%Q))
  else
    match influxquery self with
    | Some gateway =>
        calling (InfluxAvgCpu (influxid self)) (get_avg_cpu gateway (influxid self))
    | None => mret None
    end.

(** The local function of [get_lustre_stats]: the last value, or 0 when a
    key is missing. *)
Definition get_last_value (data : lustre_data) (fs server field : string)
  : result Q :=
  let attempt :=
    by_server ← getitem data fs;
    by_field ← getitem by_server server;
    entry ← getitem by_field field;
    values ← getitem entry "value";
    last_item values in
  match attempt with
  | Raise (KeyError _) => Ok 0%Q
  | other => other
  end.

(** The value sequence of a field, when every key on the way to it is
    present: the specification's reading of the nested result. *)
Definition samples (data : lustre_data) (fs server field : string)
  : option (list Q) :=
  by_server ← data !! fs;
  by_field ← by_server !! server;
  entry ← by_field !! field;
  entry !! "value".

(** The three totals of one filesystem, read in the order of the loop
    body. *)
Definition fs_totals (data : lustre_data) (fs : string) : result LustreTotals :=
  r ← get_last_value data fs "oss" "read_bytes";
  w ← get_last_value data fs "oss" "write_bytes";
  i ← get_last_value data fs "mds" "iops";
  Ok {| total_read := r; total_write := w; total_iops := i |}.

(** One turn of the loop over the filesystems of the result. *)
Definition lustre_step (data : lustre_data) (fs : string)
    (acc : result (gmap string LustreTotals)) : result (gmap string LustreTotals) :=
  lustre_stats ← acc;
  totals ← fs_totals data fs;
  Ok (<[fs := totals]> lustre_stats).

(** [get_lustre_stats]. *)
Definition get_lustre_stats (self : JobSummary)
  : traced (option (gmap string LustreTotals)) :=
  match influxquery self with
  | None => mret None
  | Some gateway =>
      data ← calling (InfluxLustre (influxid self))
                     (get_lustre_jobstats gateway (influxid self));
      lustre_stats ← pure (map_fold (fun fs _ acc => lustre_step data fs acc)
                                    (Ok ∅) data);
      mret (Some lustre_stats)
  end.

(** [get_warnings]. *)
Definition get_warnings (self : JobSummary) : result (list string) :=
  let warnings : list string := [] in
  let max_mem := sd_max_mem (summary_data self) in
  let req_mem := sd_req_mem (summary_data self) in
  let avg_cpu := sd_avg_cpu (summary_data self) in
  mem_usage_fraction ←
    match max_mem, req_mem with
    | Some m, Some r => fraction ← div m r; Ok (Some fraction)
    | _, _ => Ok None
    end;
  let warnings :=
    match mem_usage_fraction with
    | Some fraction =>
        if ltb fraction 0.5 then warnings ++ ["Too much memory requested"]
        else warnings
    | None => warnings
    end in
  let warnings :=
    match avg_cpu with
    | Some cpu =>
        if ltb cpu 75.0 then warnings ++ ["CPU usage is low"] else warnings
    | None => warnings
    end in
  Ok warnings.

(** The loop of the array branch of [get_raw_id]: the last match wins. *)
Fixpoint scan_tasks (jobs : list Job) (task_id : string) (raw_id : option Z)
  : result (option Z) :=
  match jobs with
  | [] => Ok raw_id
  | job :: rest =>
      wanted ← int task_id;
      scan_tasks rest task_id
        (if bool_decide (array_task_id job = Some wanted) then Some (id job)
         else raw_id)
  end.

(** [get_raw_id]: the raw id of an array task, of a heterogeneous
    component, or of a plain job. *)
Definition get_raw_id (db : SlurmDb) (job_id : string) : traced Z :=
  raw_id ←
    (if contains "_" job_id then
       match split "_" job_id with
       | [array_id; task_id] =>
           jobs ← calling (DbJobsLoad [array_id]) (Jobs_load db [array_id]);
           pure (scan_tasks jobs task_id None)
       | _ => pure (Raise ValueError)
       end
     else if contains "+" job_id then
       match split "+" job_id with
       | [het_job_id; het_job_offset] =>
           pure (base ← int het_job_id;
                 offset ← int het_job_offset;
                 Ok (Some (base + offset)))
       | _ => pure (Raise ValueError)
       end
     else if isdigit job_id then
       pure (n ← int job_id; Ok (Some n))
     else mret None);
  match raw_id with
  | None => pure (Raise (KeyError ("Job ID " +:+ job_id +:+ " not found")))
  | Some r => mret r
  end.

(** *** The report *)

(** The formatting helpers of [utils] and [tabulate], which summary.py
    imports from outside the sources at hand.  The optional argument of
    [percentage_bar] is its [style], that of [humansize] its [bytes] flag. *)
Record Helpers : Type := {
  percentage_bar : Q -> option string -> string;
  humansize : Q -> bool -> string;
  seconds_to_str : Q -> string;
  tabulate : list (list string) -> list string -> string
}.

Definition fs_names : gmap string string :=
  {[ "dagg" := "/fred"; "home" := "/home"; "apps" := "/apps"; "images" := "OS" ]}.

Section Render.

Variable utils : Helpers.

(** [get_lustre_summary]. *)
Definition get_lustre_summary (self : JobSummary) : result string :=
  lustre_string ←
    match sd_lustre_stats (summary_data self) with
    | None => Ok "  No data available"
    | Some data =>
        table ← mapM (fun row : string * LustreTotals =>
                        path ← getitem fs_names (fst row);
                        Ok [ path;
                             humansize utils (total_read (snd row)) true;
                             humansize utils (total_write (snd row)) true;
                             humansize utils (total_iops (snd row)) false ])
                     (map_to_list data);
        let table :=
          tabulate utils table ["Path"; "Total Read"; "Total Write"; "Total IOPS"] in
        let indent := str_mul " " 2 in
        Ok (indent +:+ replace nl (String nl indent) table)
    end;
  let summary := "Lustre Filesystem:" +:+ String nl lustre_string in
  Ok (summary +:+ String nl "").

(** [get_mem_summary]. *)
Definition get_mem_summary (self : JobSummary) : result string :=
  line ←
    match sd_max_mem (summary_data self), sd_req_mem (summary_data self) with
    | Some max_mem, Some req_mem =>
        fraction ← div max_mem req_mem;
        Ok (percentage_bar utils fraction None
            +:+ " (" +:+ humansize utils max_mem true +:+ " peak / "
            +:+ humansize utils req_mem true +:+ ")")
    | _, _ => Ok "No data available"
    end;
  Ok (ljust "Memory (RAM)" (heading_width self) +:+ line).

(** [get_cpu_summary]. *)
Definition get_cpu_summary (self : JobSummary) : result string :=
  line ←
    match sd_avg_cpu (summary_data self) with
    | None => Ok "No data available"
    | Some avg_cpu =>
        fraction ← div avg_cpu 100;
        Ok (percentage_bar utils fraction None +:+ " average")
    end;
  Ok (ljust "CPU" (heading_width self) +:+ line).

(** [get_time_summary]. *)
Definition get_time_summary (self : JobSummary) : result string :=
  line ←
    match sd_elapsed_time (summary_data self), sd_time_limit (summary_data self) with
    | Some elapsed, Some limit =>
        fraction ← div elapsed limit;
        Ok (percentage_bar utils fraction (Some "arrow")
            +:+ " (" +:+ seconds_to_str utils elapsed +:+ " / "
            +:+ seconds_to_str utils limit +:+ ")")
    | _, _ => Ok "No data available"
    end;
  Ok (ljust "Time" (heading_width self) +:+ line).

(** [get_warnings_summary]. *)
Definition get_warnings_summary (self : JobSummary) : string :=
  let summary :=
    match sd_warnings (summary_data self) with
    | None | Some [] => ""
    | Some ws => join (String nl "") (["Warnings:"] ++ map (fun w => "  - " +:+ w) ws)
    end in
  summary +:+ String nl "".

(** The content lines of the report: the six parts joined, stripped of
    outer newlines and split again. *)
Definition content_lines (self : JobSummary) : result (list string) :=
  mem ← get_mem_summary self;
  cpu ← get_cpu_summary self;
  time ← get_time_summary self;
  lustre ← get_lustre_summary self;
  let summary_list := [mem; cpu; time; ""; lustre; get_warnings_summary self] in
  let summary := join (String nl "") summary_list in
  let summary := strip nl summary in
  Ok (split nl summary).

Definition title_of (self : JobSummary) : string :=
  "Job Summary: " +:+ job_id self +:+ " (" +:+ sd_state (summary_data self) +:+ ")".

(** The width of the report body. *)
Definition report_width (title : string) (lines : list string) : result Z :=
  longest ← max_list (map len lines);
  Ok (Z.max longest (len title)).

(** The top border with the title embedded. *)
Definition title_border (title : string) (max_len : Z) : string :=
  let ndash := max_len - len title in
  let ldashes := str_mul "-" (ndash / 2) in
  let rdashes := str_mul "-" (ndash / 2) in
  let rdashes := if ndash mod 2 =? 1 then rdashes +:+ "-" else rdashes in
  "+" +:+ ldashes +:+ " " +:+ title +:+ " " +:+ rdashes +:+ "+".

Definition bottom_border_of (max_len : Z) : string :=
  "+" +:+ str_mul "-" (max_len + 2) +:+ "+".

Definition boxed (max_len : Z) (line : string) : string :=
  "| " +:+ ljust line max_len +:+ " |".

(** The lines handed to the final join: top border, boxed content,
    bottom border. *)
Definition frame (title : string) (lines : list string) : result (list string) :=
  max_len ← report_width title lines;
  let title_line := title_border title max_len in
  let bottom_border := bottom_border_of max_len in
  Ok ([title_line] ++ map (boxed max_len) lines ++ [bottom_border]).

(** [get_full_summary]. *)
Definition get_full_summary (self : JobSummary) : result string :=
  lines ← content_lines self;
  framed ← frame (title_of self) lines;
  Ok (join (String nl "") framed).

End Render.

(** *** Construction *)

Definition no_summary_data (state : string) : SummaryData := {|
  sd_state := state; sd_req_mem := None; sd_max_mem := None;
  sd_elapsed_time := None; sd_time_limit := None; sd_avg_cpu := None;
  sd_lustre_stats := None; sd_warnings := None
|}.

(** The metrics id chosen by [__init__]. *)
Definition metrics_id (job_id : string) (db_data : Job) : string :=
  if truthy (array_id db_data) && truthy (array_task_id db_data) then
    format (array_id db_data) +:+ "_" +:+ format (array_task_id db_data)
  else job_id.

(** The object once its identity and source attributes are assigned. *)
Definition new_object (job_id : string) (raw_id : Z) (db_data : Job)
    (influxquery : option InfluxQuery) : JobSummary := {|
  job_id := job_id; raw_id := raw_id; db_data := db_data;
  influxid := metrics_id job_id db_data;
  finished := not_in (state db_data) UNFINISHED_STATES;
  influxquery := influxquery;
  summary_data := no_summary_data (state db_data);
  warnings := []; heading_width := 14 |}.

(** [self.summary_data = data]. *)
Definition set_summary_data (self : JobSummary) (data : SummaryData)
  : JobSummary := {|
  job_id := job_id self; raw_id := raw_id self; db_data := db_data self;
  influxid := influxid self; finished := finished self;
  influxquery := influxquery self; summary_data := data;
  warnings := warnings self; heading_width := heading_width self |}.

(** [self.warnings = ws; self.summary_data["warnings"] = ws]. *)
Definition set_warnings (self : JobSummary) (ws : list string) : JobSummary := {|
  job_id := job_id self; raw_id := raw_id self; db_data := db_data self;
  influxid := influxid self; finished := finished self;
  influxquery := influxquery self;
  summary_data := {|
    sd_state := sd_state (summary_data self);
    sd_req_mem := sd_req_mem (summary_data self);
    sd_max_mem := sd_max_mem (summary_data self);
    sd_elapsed_time := sd_elapsed_time (summary_data self);
    sd_time_limit := sd_time_limit (summary_data self);
    sd_avg_cpu := sd_avg_cpu (summary_data self);
    sd_lustre_stats := sd_lustre_stats (summary_data self);
    sd_warnings := Some ws |};
  warnings := ws; heading_width := heading_width self |}.

(** The [summary_data] dict as [__init__] first fills it. *)
Definition collect (self : JobSummary) (req_mem : Q) (max_mem avg_cpu : option Q)
    (lustre_stats : option (gmap string LustreTotals)) : SummaryData := {|
  sd_state := state (db_data self);
  sd_req_mem := Some req_mem;
  sd_max_mem := max_mem;
  sd_elapsed_time := Some (get_elapsed_time_seconds self);
  sd_time_limit := Some (get_time_limit_seconds self);
  sd_avg_cpu := avg_cpu;
  sd_lustre_stats := lustre_stats;
  sd_warnings := None |}.

(** [__init__].  The attributes are assigned in the order of the source;
    [heading_width], assigned last there, is read by the renderer only. *)
Definition init (db : SlurmDb) (job_id : string) (influxquery : option InfluxQuery)
  : traced JobSummary :=
  raw_id ← get_raw_id db job_id;
  db_data ← calling (DbJobLoad raw_id) (Job_load db raw_id);
  let self := new_object job_id raw_id db_data influxquery in
  req_mem ← pure (get_req_mem_bytes self);
  max_mem ← get_max_mem_bytes self;
  avg_cpu ← get_user_cpu_percentage self;
  lustre_stats ← get_lustre_stats self;
  let self := set_summary_data self (collect self req_mem max_mem avg_cpu lustre_stats) in
  warnings ← pure (get_warnings self);
  mret (set_warnings self warnings).

(** [__str__]. *)
Definition to_str (utils : Helpers) (self : JobSummary) : result string :=
  get_full_summary utils self.

End Summary.

(** The two warning texts. *)
Abbreviation memory_warning := "Too much memory requested"%string.
Abbreviation cpu_warning := "CPU usage is low"%string.

(** ** Sample records and objects, used to exercise the statements *)

Module Fixtures.

Import Summary.

(** A completed job: 16 GiB requested over 2 nodes, 3 GiB peak,
    80 s of user CPU time over 100 s of CPU time. *)
Definition completed_job : Job := {|
  id := 1001; array_id := None; array_task_id := None;
  state := "COMPLETED"; num_nodes := 2; memory := 16384;
  elapsed_time := Some 300%Q; time_limit := 600;
  stats := {| max_resident_memory := 3221225472;
              elapsed_cpu_time := 100; user_cpu_time := 80 |};
  steps := [ {| step_stats := {| max_resident_memory := 3221225472;
                                 elapsed_cpu_time := 100;
                                 user_cpu_time := 80 |} |} ]
|}.

(** A pending job: no node allocated yet. *)
Definition pending_job : Job := {|
  id := 2002; array_id := None; array_task_id := None;
  state := "PENDING"; num_nodes := 0; memory := 4096;
  elapsed_time := None; time_limit := 60;
  stats := {| max_resident_memory := 0; elapsed_cpu_time := 0;
              user_cpu_time := 0 |};
  steps := []
|}.

(** An object around a record, before [summary_data] is filled. *)
Definition bare (job_id : string) (db_data : Job)
    (influxquery : option InfluxQuery) : JobSummary :=
  new_object job_id (id db_data) db_data influxquery.

Definition completed_self : JobSummary := bare "1001" completed_job None.

(** A completed job whose steps ran four threads: 250 s of user CPU time
    against 100 s of CPU time. *)
Definition threaded_job : Job := {|
  id := 1002; array_id := None; array_task_id := None;
  state := "COMPLETED"; num_nodes := 1; memory := 8192;
  elapsed_time := Some 100%Q; time_limit := 60;
  stats := {| max_resident_memory := 1073741824;
              elapsed_cpu_time := 100; user_cpu_time := 250 |};
  steps := [ {| step_stats := {| max_resident_memory := 1073741824;
                                 elapsed_cpu_time := 60;
                                 user_cpu_time := 150 |} |};
             {| step_stats := {| max_resident_memory := 1073741824;
                                 elapsed_cpu_time := 40;
                                 user_cpu_time := 100 |} |} ]
|}.

Definition threaded_self : JobSummary := bare "1002" threaded_job None.

(** An object with the three fields the warnings read. *)
Definition with_fields (req_mem max_mem avg_cpu : option Q) : JobSummary := {|
  job_id := "1001"; raw_id := 1001; db_data := completed_job;
  influxid := "1001"; finished := true; influxquery := None;
  summary_data := {|
    sd_state := "COMPLETED"; sd_req_mem := req_mem; sd_max_mem := max_mem;
    sd_elapsed_time := Some 300%Q; sd_time_limit := Some 36000%Q;
    sd_avg_cpu := avg_cpu; sd_lustre_stats := None; sd_warnings := None |};
  warnings := []; heading_width := 14 |}.

(** A running job on one node. *)
Definition running_job : Job := {|
  id := 3003; array_id := None; array_task_id := None;
  state := "RUNNING"; num_nodes := 1; memory := 4096;
  elapsed_time := Some 120%Q; time_limit := 60;
  stats := {| max_resident_memory := 0; elapsed_cpu_time := 0;
              user_cpu_time := 0 |};
  steps := []
|}.

(** Task [t] of array 500, stored under raw id [raw]. *)
Definition array_task (raw t : Z) : Job := {|
  id := raw; array_id := Some 500; array_task_id := Some t;
  state := "COMPLETED"; num_nodes := 1; memory := 2048;
  elapsed_time := Some 60%Q; time_limit := 10;
  stats := {| max_resident_memory := 1073741824; elapsed_cpu_time := 60;
              user_cpu_time := 50 |};
  steps := [ {| step_stats := {| max_resident_memory := 1073741824;
                                 elapsed_cpu_time := 60;
                                 user_cpu_time := 50 |} |} ]
|}.

Definition array_500 : list Job :=
  [array_task 501 1; array_task 502 2; array_task 500 3].

(** A small accounting database. *)
Definition sample_db : SlurmDb := {|
  Job_load := fun raw =>
    match List.find (fun j => id j =? raw)
            ([completed_job; pending_job; running_job; threaded_job] ++ array_500) with
    | Some j => Ok j
    | None => Raise (ExternalError "no such job")
    end;
  Jobs_load := fun ids =>
    Ok (if bool_decide (ids = ["500"]) then array_500 else [])
|}.

(** A filesystem result with holes: [dagg] has read samples only, [home]
    has every field. *)
Definition sample_lustre : lustre_data :=
  {[ "dagg" := {[ "oss" := {[ "read_bytes" := {[ "value" := [10; 20; 30]%Q ]} ]} ]};
     "home" := {[ "oss" := {[ "read_bytes" := {[ "value" := [1; 2]%Q ]};
                              "write_bytes" := {[ "value" := [5]%Q ]} ]};
                  "mds" := {[ "iops" := {[ "value" := [7; 8]%Q ]} ]} ]} ]}.

(** A gateway with canned answers. *)
Definition stub_gateway : InfluxQuery := {|
  get_max_mem := fun _ => Ok (Some 2147483648%Q);
  get_avg_cpu := fun _ => Ok (Some 90%Q);
  get_lustre_jobstats := fun _ => Ok sample_lustre
|}.

(** A gateway whose peak-memory query is that of memory.py over a store
    with no sample. *)
Definition empty_query (text : string) : result (list Memory.FluxTable) := Ok [].

Definition empty_gateway : InfluxQuery := {|
  get_max_mem := Memory.get_max_mem empty_query;
  get_avg_cpu := fun _ => Ok None;
  get_lustre_jobstats := fun _ => Ok ∅
|}.

Definition pending_self : JobSummary := bare "2002" pending_job (Some empty_gateway).

(** The summary of the running job, as [__init__] builds it. *)
Definition running_summary : JobSummary :=
  Eval vm_compute in
    match outcome (init sample_db "3003" (Some stub_gateway)) with
    | Ok s => s
    | Raise _ => completed_self
    end.

Definition running_self : JobSummary :=
  bare "3003" running_job (Some stub_gateway).

(** The filesystem totals of the running job. *)
Definition running_lustre_stats : gmap string LustreTotals :=
  Eval vm_compute in
    match outcome (get_lustre_stats running_self) with
    | Ok (Some stats) => stats
    | _ => ∅
    end.

(** Formatting helpers with fixed outputs, to run the renderer. *)
Definition plain_utils : Helpers := {|
  percentage_bar := fun _ _ => "[#####     ]";
  humansize := fun _ _ => "1.0G";
  seconds_to_str := fun _ => "0-00:05:00";
  tabulate := fun rows headers =>
    join (String nl "") (map (join "  ") (headers :: rows))
|}.

(** The summary of the completed job and its rendered report. *)
Definition completed_summary : JobSummary :=
  Eval vm_compute in
    match outcome (init sample_db "1001" None) with
    | Ok s => s
    | Raise _ => completed_self
    end.

Definition completed_report : string :=
  Eval vm_compute in
    match get_full_summary plain_utils completed_summary with
    | Ok report => report
    | Raise _ => ""
    end.

End Fixtures.

(** ** memory.py: the printed summary *)

Module MemoryPrint.

(** A line written by [print] or by [utils.indentprint]. *)
Inductive output : Type :=
  | Print (text : string)
  | IndentPrint (text : string).

(** What a run wrote, oldest first, and how it ended. *)
Record printed : Type := Printed {
  written : list output;
  ending : result unit
}.

Section WithFormat.

(** [utils.humansize] and the float format [:.1f] come from outside the
    sources at hand. *)
Variable humansize : Q -> string.
Variable format_1f : Q -> string.

(** [print_mem_summary]. *)
Definition print_mem_summary (max_mem : option Q) (requested_mem : Q) : printed :=
  let head := [ Print "Memory (RAM):";
                IndentPrint ("Requested: " +:+ humansize requested_mem) ] in
  match max_mem with
  | None =>
      Printed (head ++ [IndentPrint "No memory usage data available"]) (Ok tt)
  | Some peak =>
      match div (100 * peak) requested_mem with
      | Ok percent =>
          Printed (head ++ [IndentPrint ("Peak:      " +:+ humansize peak +:+ " ("
                                         +:+ format_1f percent +:+ "%)")])
                  (Ok tt)
      | Raise e => Printed head (Raise e)
      end
  end.

End WithFormat.

End MemoryPrint.

(** ** Further sample records *)

Module MoreFixtures.

Import Summary.

(** A job cancelled before any node was allocated to it. *)
Definition cancelled_job : Job := {|
  id := 4004; array_id := None; array_task_id := None;
  state := "CANCELLED"; num_nodes := 0; memory := 4096;
  elapsed_time := Some 0%Q; time_limit := 60;
  stats := {| max_resident_memory := 0; elapsed_cpu_time := 0;
              user_cpu_time := 0 |};
  steps := []
|}.

(** A completed job for which no step was recorded. *)
Definition stepless_job : Job := {|
  id := 5005; array_id := None; array_task_id := None;
  state := "COMPLETED"; num_nodes := 1; memory := 1024;
  elapsed_time := Some 30%Q; time_limit := 10;
  stats := {| max_resident_memory := 1073741824; elapsed_cpu_time := 30;
              user_cpu_time := 0 |};
  steps := []
|}.

(** A completed job with a time limit of 0 minutes. *)
Definition unlimited_job : Job := {|
  id := 6006; array_id := None; array_task_id := None;
  state := "COMPLETED"; num_nodes := 1; memory := 1024;
  elapsed_time := Some 30%Q; time_limit := 0;
  stats := {| max_resident_memory := 1073741824; elapsed_cpu_time := 30;
              user_cpu_time := 29 |};
  steps := [ {| step_stats := {| max_resident_memory := 1073741824;
                                 elapsed_cpu_time := 30;
                                 user_cpu_time := 29 |} |} ]
|}.

(** The sample database with these three jobs added. *)
Definition wider_db : SlurmDb := {|
  Job_load := fun raw =>
    match List.find (fun j => id j =? raw)
            [cancelled_job; stepless_job; unlimited_job] with
    | Some j => Ok j
    | None => Job_load Fixtures.sample_db raw
    end;
  Jobs_load := Jobs_load Fixtures.sample_db
|}.

Definition summary_of (db : SlurmDb) (job_id : string)
    (influxquery : option InfluxQuery) : JobSummary :=
  match outcome (init db job_id influxquery) with
  | Ok s => s
  | Raise _ => Fixtures.completed_self
  end.

(** Task 2 of array 500, asked for by its raw id. *)
Definition task_summary : JobSummary :=
  Eval vm_compute in summary_of Fixtures.sample_db "502" None.

Definition stepless_summary : JobSummary :=
  Eval vm_compute in summary_of wider_db "5005" None.

Definition unlimited_summary : JobSummary :=
  Eval vm_compute in summary_of wider_db "6006" None.

Definition pending_summary : JobSummary :=
  Eval vm_compute in summary_of Fixtures.sample_db "2002" None.

(** A gateway that reports a filesystem the renderer has no path for. *)
Definition scratch_lustre : lustre_data :=
  {[ "scratch" := {[ "oss" := {[ "read_bytes" := {[ "value" := [4]%Q ]} ]} ]} ]}.

Definition scratch_gateway : InfluxQuery := {|
  get_max_mem := fun _ => Ok None;
  get_avg_cpu := fun _ => Ok None;
  get_lustre_jobstats := fun _ => Ok scratch_lustre
|}.

Definition scratch_summary : JobSummary :=
  Eval vm_compute in summary_of Fixtures.sample_db "3003" (Some scratch_gateway).





End MoreFixtures.

(** * Properties *)

Import Summary.

(** ** Numbers and results *)

Section Numbers.

Local Open Scope Q_scope.

Lemma ltb_lt (a b : Q) : ltb a b = true <-> a < b.
Proof. unfold ltb, Qlt. apply Z.ltb_lt. Qed.

Lemma ltb_ge (a b : Q) : ltb a b = false <-> b <= a.
Proof. unfold ltb, Qle. rewrite Z.ltb_ge. reflexivity. Qed.

Lemma Qeq_bool_false (a b : Q) : Qeq_bool a b = false <-> ~ a == b.
Proof.
  split.
  - intros E H. apply Qeq_eq_bool in H. congruence.
  - intros H. destruct (Qeq_bool a b) eqn:E; [|reflexivity].
    apply Qeq_bool_eq in E. contradiction.
Qed.

Lemma div_nonzero (a b : Q) : ~ b == 0 -> div a b = Ok (a / b).
Proof. intros H. unfold div. apply Qeq_bool_false in H. rewrite H. reflexivity. Qed.

Lemma div_zero (a b : Q) : b == 0 -> div a b = Raise ZeroDivisionError.
Proof. intros H. unfold div. rewrite (Qeq_eq_bool _ _ H). reflexivity. Qed.

Lemma div_cases (a b : Q) :
  (b == 0 /\ div a b = Raise ZeroDivisionError) \/
  (~ b == 0 /\ div a b = Ok (a / b)).
Proof.
  destruct (Qeq_dec b 0) as [E|E].
  - left. split; [exact E | apply div_zero, E].
  - right. split; [exact E | apply div_nonzero, E].
Qed.

Lemma inject_Z_nonzero (n : Z) : n <> 0%Z -> ~ inject_Z n == 0.
Proof. intros Hn E. unfold Qeq in E. simpl in E. lia. Qed.

End Numbers.

(** ** Requested memory per node *)

Section ReqMem.

Local Open Scope Q_scope.

Lemma get_req_mem_bytes_eq (self : JobSummary) :
  get_req_mem_bytes self =
  Ok (if (num_nodes (db_data self) =? 0)%Z then 0
      else memory (db_data self) / inject_Z (num_nodes (db_data self)) * 1024 ^ 2).
Proof.
  unfold get_req_mem_bytes.
  destruct (Z.eqb_spec (num_nodes (db_data self)) 0) as [E|E]; [reflexivity|].
  rewrite (div_nonzero _ _ (inject_Z_nonzero _ E)). reflexivity.
Qed.

(** C2: for a job record with node count > 0 the requested memory per node
    (in bytes) is the total requested memory (the record's megabytes, in
    bytes) divided by the node count; for node count 0 the result is
    exactly 0; and no division-by-zero fault is raised for any record. *)
Theorem get_req_mem_bytes_per_node (self : JobSummary) :
  ((0 < num_nodes (db_data self))%Z ->
     exists q, get_req_mem_bytes self = Ok q /\
               q == (memory (db_data self) * 1024 ^ 2)
                    / inject_Z (num_nodes (db_data self))) /\
  (num_nodes (db_data self) = 0%Z -> get_req_mem_bytes self = Ok 0) /\
  get_req_mem_bytes self <> Raise ZeroDivisionError.
Proof.
  rewrite get_req_mem_bytes_eq. split; [|split].
  - intros Hpos.
    destruct (Z.eqb_spec (num_nodes (db_data self)) 0) as [E|E]; [lia|].
    eexists. split; [reflexivity|].
    field. apply inject_Z_nonzero, E.
  - intros ->. reflexivity.
  - discriminate.
Qed.

Lemma get_req_mem_bytes_per_node_witness :
  (0 < num_nodes (db_data Fixtures.completed_self))%Z /\
  exists q, get_req_mem_bytes Fixtures.completed_self = Ok q /\
            q == (memory (db_data Fixtures.completed_self) * 1024 ^ 2)
                 / inject_Z (num_nodes (db_data Fixtures.completed_self)).
Proof.
  assert (H : (0 < num_nodes (db_data Fixtures.completed_self))%Z)
    by (simpl; lia).
  split; [exact H|].
  exact (proj1 (get_req_mem_bytes_per_node Fixtures.completed_self) H).
Defined.

(** The sacct helper of memory.py divides by the requested node count as
    it is: a positive count gives the quotient, and a count of 0 raises. *)
Lemma sacct_get_req_mem (bytesize : string -> result Q) (sacct_data : gmap string string)
    (text nodes_text : string) (req_mem : Q) (nodes : Z) :
  sacct_data !! "req_mem" = Some text ->
  bytesize text = Ok req_mem ->
  sacct_data !! "req_nodes" = Some nodes_text ->
  int nodes_text = Ok nodes ->
  Memory.get_req_mem bytesize sacct_data =
    if (nodes =? 0)%Z then Raise ZeroDivisionError
    else Ok (req_mem / inject_Z nodes).
Proof.
  intros H1 H2 H3 H4. unfold Memory.get_req_mem, getitem.
  rewrite H1. cbn. rewrite H2. cbn. rewrite H3. cbn. rewrite H4. cbn.
  destruct (Z.eqb_spec nodes 0) as [->|E].
  - reflexivity.
  - rewrite (div_nonzero _ _ (inject_Z_nonzero _ E)). reflexivity.
Qed.

End ReqMem.

(** ** Average CPU of a finished job *)

Section FinishedCpu.

Local Open Scope Q_scope.

Lemma foldl_user_cpu (steps : list JobStep) (acc : Q) :
  foldl (fun acc step => acc + user_cpu_time (step_stats step)) acc steps
  == acc + total_user_cpu steps.
Proof.
  revert acc. induction steps as [|step steps IH]; intros acc; simpl.
  - ring.
  - rewrite IH. ring.
Qed.

Lemma percentage_above_100 (total elapsed : Q) :
  0 < elapsed -> elapsed < total -> 100 < total / elapsed * 100.
Proof.
  intros Hpos Hlt.
  assert (H1 : 1 < total / elapsed).
  { apply Qlt_shift_div_l; [exact Hpos|]. rewrite Qmult_1_l. exact Hlt. }
  assert (H2 : 1 * 100 < total / elapsed * 100)
    by (apply Qmult_lt_compat_r; [reflexivity | exact H1]).
  rewrite Qmult_1_l in H2. exact H2.
Qed.

(** C3: for a finished job, an aggregate elapsed CPU time of zero gives an
    average CPU of 0 and no fault; otherwise the value is the sum of the
    user CPU time of all steps, divided by the aggregate elapsed CPU time,
    times 100, with no clamping: it exceeds 100 as soon as the sum exceeds
    a positive elapsed CPU time. *)
Theorem finished_cpu_percentage (self : JobSummary) :
  finished self = true ->
  let elapsed := elapsed_cpu_time (stats (db_data self)) in
  let total := total_user_cpu (steps (db_data self)) in
  (elapsed == 0 ->
     get_user_cpu_percentage self = Traced [] (Ok (Some 0))) /\
  (~ elapsed == 0 ->
     exists v, get_user_cpu_percentage self = Traced [] (Ok (Some v)) /\
               v == total / elapsed * 100 /\
               (0 < elapsed -> elapsed < total -> 100 < v)).
Proof.
  intros Hfin elapsed total. unfold get_user_cpu_percentage. rewrite Hfin.
  fold elapsed. split.
  - intros E. rewrite (Qeq_eq_bool _ _ E). reflexivity.
  - intros E. pose proof E as E'. apply Qeq_bool_false in E'. rewrite E'.
    rewrite (div_nonzero _ _ E). eexists. split; [reflexivity|].
    assert (Hv : foldl (fun acc step => acc + user_cpu_time (step_stats step)) 0
                   (steps (db_data self)) / elapsed * 100
                 == total / elapsed * 100).
    { rewrite foldl_user_cpu. unfold total. field. exact E. }
    split; [exact Hv|].
    intros Hpos Hlt. rewrite Hv. apply percentage_above_100; assumption.
Qed.

Lemma finished_cpu_percentage_witness :
  finished Fixtures.threaded_self = true /\
  exists v, get_user_cpu_percentage Fixtures.threaded_self
              = Traced [] (Ok (Some v)) /\
            v == 250 / 100 * 100 /\ 100 < v.
Proof.
  assert (Hfin : finished Fixtures.threaded_self = true) by reflexivity.
  split; [exact Hfin|].
  destruct (finished_cpu_percentage Fixtures.threaded_self Hfin) as [_ H].
  destruct H as [v [Hv [Heq Hgt]]]; [vm_compute; discriminate|].
  exists v. split; [exact Hv|]. split.
  - rewrite Heq. vm_compute. reflexivity.
  - apply Hgt; vm_compute; reflexivity.
Defined.

End FinishedCpu.

(** ** Warnings *)

Section Warnings.

Local Open Scope Q_scope.

(** The warnings, by cases on the three fields read. *)
Lemma get_warnings_eq (self : JobSummary) :
  let cpu_part :=
    match sd_avg_cpu (summary_data self) with
    | Some cpu => if ltb cpu 75.0 then [cpu_warning] else []
    | None => []
    end in
  get_warnings self =
  match sd_max_mem (summary_data self), sd_req_mem (summary_data self) with
  | Some m, Some r =>
      if Qeq_bool r 0 then Raise ZeroDivisionError
      else Ok ((if ltb (m / r) 0.5 then [memory_warning] else []) ++ cpu_part)
  | _, _ => Ok cpu_part
  end.
Proof.
  unfold get_warnings.
  destruct (sd_max_mem (summary_data self)) as [m|],
           (sd_req_mem (summary_data self)) as [r|],
           (sd_avg_cpu (summary_data self)) as [c|]; cbn;
    try reflexivity;
    unfold div; destruct (Qeq_bool r 0); cbn; try reflexivity;
    destruct (ltb (m / r) 0.5); try destruct (ltb c 75.0); reflexivity.
Qed.

(** The four shapes of a warnings list. *)
Lemma get_warnings_shape (self : JobSummary) (ws : list string) :
  get_warnings self = Ok ws ->
  ws = [] \/ ws = [memory_warning] \/ ws = [cpu_warning]
  \/ ws = [memory_warning; cpu_warning].
Proof.
  rewrite get_warnings_eq. cbv zeta.
  destruct (sd_max_mem (summary_data self)) as [m|],
           (sd_req_mem (summary_data self)) as [r|],
           (sd_avg_cpu (summary_data self)) as [c|];
    repeat match goal with
           | |- context [if ?b then _ else _] => destruct b
           end;
    intros [= <-]; auto.
Qed.

Lemma memory_warning_iff (self : JobSummary) (ws : list string) :
  get_warnings self = Ok ws ->
  (In memory_warning ws <->
   exists m r, sd_max_mem (summary_data self) = Some m /\
               sd_req_mem (summary_data self) = Some r /\
               m / r < 0.5).
Proof.
  rewrite get_warnings_eq. cbv zeta. intros H. split.
  - intros Hin.
    destruct (sd_max_mem (summary_data self)) as [m|],
             (sd_req_mem (summary_data self)) as [r|];
      try (destruct (sd_avg_cpu (summary_data self)) as [c|];
           [destruct (ltb c 75.0)|]; injection H as <-;
           simpl in Hin; intuition discriminate).
    destruct (Qeq_bool r 0); [discriminate|].
    destruct (ltb (m / r) 0.5) eqn:E.
    + exists m, r. split; [reflexivity|]. split; [reflexivity|].
      apply ltb_lt, E.
    + injection H as <-.
      destruct (sd_avg_cpu (summary_data self)) as [c|];
        [destruct (ltb c 75.0)|]; simpl in Hin; intuition discriminate.
  - intros [m [r [Hm [Hr Hlt]]]]. rewrite Hm, Hr in H.
    destruct (Qeq_bool r 0); [discriminate|].
    apply ltb_lt in Hlt. rewrite Hlt in H. injection H as <-.
    simpl. left. reflexivity.
Qed.

Lemma cpu_warning_iff (self : JobSummary) (ws : list string) :
  get_warnings self = Ok ws ->
  (In cpu_warning ws <->
   exists cpu, sd_avg_cpu (summary_data self) = Some cpu /\ cpu < 75.0).
Proof.
  rewrite get_warnings_eq. cbv zeta. intros H.
  assert (Hcpu : In cpu_warning ws <->
                 In cpu_warning
                    match sd_avg_cpu (summary_data self) with
                    | Some cpu => if ltb cpu 75.0 then [cpu_warning] else []
                    | None => []
                    end).
  { destruct (sd_max_mem (summary_data self)) as [m|],
             (sd_req_mem (summary_data self)) as [r|];
      try (injection H as <-; reflexivity).
    destruct (Qeq_bool r 0); [discriminate|]. injection H as <-.
    rewrite in_app_iff.
    destruct (ltb (m / r) 0.5); simpl; intuition discriminate. }
  rewrite Hcpu. clear Hcpu H.
  destruct (sd_avg_cpu (summary_data self)) as [c|].
  - destruct (ltb c 75.0) eqn:E.
    + split; [|simpl; auto]. intros _. exists c. split; [reflexivity|].
      apply ltb_lt, E.
    + split; [intros []|]. intros [c' [[= <-] Hlt]].
      apply ltb_lt in Hlt. congruence.
  - split; [intros []|]. intros [c' [[=] _]].
Qed.

(** C4: the warning "Too much memory requested" is in the warnings list
    exactly when peak and requested memory are both known and
    peak/requested < 0.5; at a ratio of exactly 0.5 it is absent and at
    0.4999 it is present. *)
Theorem too_much_memory_warning (self : JobSummary) (ws : list string) :
  get_warnings self = Ok ws ->
  (In memory_warning ws <->
   exists m r, sd_max_mem (summary_data self) = Some m /\
               sd_req_mem (summary_data self) = Some r /\
               m / r < 0.5) /\
  (forall m r, sd_max_mem (summary_data self) = Some m ->
               sd_req_mem (summary_data self) = Some r ->
               (m / r == 0.5 -> ~ In memory_warning ws) /\
               (m / r == 0.4999 -> In memory_warning ws)).
Proof.
  intros H. pose proof (memory_warning_iff self ws H) as Hiff.
  split; [exact Hiff|]. intros m r Hm Hr. split.
  - intros Hhalf Hin. apply Hiff in Hin.
    destruct Hin as [m' [r' [Hm' [Hr' Hlt]]]].
    rewrite Hm in Hm'. rewrite Hr in Hr'.
    injection Hm' as <-. injection Hr' as <-.
    rewrite Hhalf in Hlt. revert Hlt. vm_compute. discriminate.
  - intros Hnear. apply Hiff. exists m, r.
    split; [exact Hm|]. split; [exact Hr|]. rewrite Hnear. reflexivity.
Qed.

Lemma too_much_memory_warning_witness :
  get_warnings (Fixtures.with_fields (Some 10000) (Some 4999) None)
    = Ok [memory_warning] /\
  (In memory_warning [memory_warning] <->
   exists m r, Some 4999 = Some m /\ Some 10000 = Some r /\ m / r < 0.5).
Proof.
  assert (H : get_warnings (Fixtures.with_fields (Some 10000) (Some 4999) None)
              = Ok [memory_warning]) by reflexivity.
  split; [exact H|].
  exact (proj1 (too_much_memory_warning _ _ H)).
Defined.

(** C5: the warning "CPU usage is low" is in the warnings list exactly when
    the average CPU is known and below 75.0; at exactly 75.0 it is absent
    and at 74.9 it is present.  It does not depend on the memory warning:
    the list is one of the four combinations, with the memory warning
    first when both fire. *)
Theorem cpu_usage_low_warning (self : JobSummary) (ws : list string) :
  get_warnings self = Ok ws ->
  (In cpu_warning ws <->
   exists cpu, sd_avg_cpu (summary_data self) = Some cpu /\ cpu < 75.0) /\
  (forall cpu, sd_avg_cpu (summary_data self) = Some cpu ->
               (cpu == 75.0 -> ~ In cpu_warning ws) /\
               (cpu == 74.9 -> In cpu_warning ws)) /\
  (ws = [] \/ ws = [memory_warning] \/ ws = [cpu_warning]
   \/ ws = [memory_warning; cpu_warning]) /\
  (In memory_warning ws -> In cpu_warning ws ->
   ws = [memory_warning; cpu_warning]).
Proof.
  intros H. pose proof (cpu_warning_iff self ws H) as Hiff.
  pose proof (get_warnings_shape self ws H) as Hshape.
  split; [exact Hiff|]. split; [|split; [exact Hshape|]].
  - intros cpu Hc. split.
    + intros Heq Hin. apply Hiff in Hin. destruct Hin as [c' [Hc' Hlt]].
      rewrite Hc in Hc'. injection Hc' as <-.
      rewrite Heq in Hlt. revert Hlt. vm_compute. discriminate.
    + intros Heq. apply Hiff. exists cpu. split; [exact Hc|].
      rewrite Heq. reflexivity.
  - intros Hm Hc.
    destruct Hshape as [-> | [-> | [-> | ->]]]; simpl in Hm, Hc;
      try reflexivity; intuition discriminate.
Qed.

Lemma cpu_usage_low_warning_witness :
  get_warnings (Fixtures.with_fields (Some 10000) (Some 4999) (Some 74.9))
    = Ok [memory_warning; cpu_warning] /\
  (In cpu_warning [memory_warning; cpu_warning] <->
   exists cpu, Some 74.9 = Some cpu /\ cpu < 75.0).
Proof.
  assert (H : get_warnings
                (Fixtures.with_fields (Some 10000) (Some 4999) (Some 74.9))
              = Ok [memory_warning; cpu_warning]) by reflexivity.
  split; [exact H|].
  exact (proj1 (cpu_usage_low_warning _ _ H)).
Defined.

End Warnings.

(** ** The quotient peak/requested *)

Section MemoryQuotient.

Local Open Scope Q_scope.

Variable utils : Helpers.

Lemma get_mem_summary_eq (self : JobSummary) :
  get_mem_summary utils self =
  match sd_max_mem (summary_data self), sd_req_mem (summary_data self) with
  | Some m, Some r =>
      if Qeq_bool r 0 then Raise ZeroDivisionError
      else Ok (ljust "Memory (RAM)" (heading_width self)
               +:+ percentage_bar utils (m / r) None
               +:+ " (" +:+ humansize utils m true +:+ " peak / "
               +:+ humansize utils r true +:+ ")")
  | _, _ => Ok (ljust "Memory (RAM)" (heading_width self) +:+ "No data available")
  end.
Proof.
  unfold get_mem_summary.
  destruct (sd_max_mem (summary_data self)) as [m|],
           (sd_req_mem (summary_data self)) as [r|]; try reflexivity.
  unfold div. destruct (Qeq_bool r 0); reflexivity.
Qed.

(** C10: when the requested memory per node is nonzero, or the peak memory
    is null, the warnings and the memory line are produced without a
    fault.  The guard before the quotient tests the two fields against
    null only: with a known peak and a requested memory of 0 both raise
    [ZeroDivisionError]. *)
Theorem memory_quotient_fault_free (self : JobSummary) :
  ((forall r, sd_req_mem (summary_data self) = Some r -> ~ r == 0)
   \/ sd_max_mem (summary_data self) = None ->
   (exists ws, get_warnings self = Ok ws) /\
   (exists line, get_mem_summary utils self = Ok line)) /\
  (forall m r, sd_max_mem (summary_data self) = Some m ->
               sd_req_mem (summary_data self) = Some r ->
               r == 0 ->
               get_warnings self = Raise ZeroDivisionError /\
               get_mem_summary utils self = Raise ZeroDivisionError).
Proof.
  rewrite get_warnings_eq, get_mem_summary_eq. cbv zeta. split.
  - intros Hsafe.
    destruct (sd_max_mem (summary_data self)) as [m|];
      [|split; eexists; reflexivity].
    destruct (sd_req_mem (summary_data self)) as [r|];
      [|split; eexists; reflexivity].
    destruct Hsafe as [Hr|Hnone]; [|discriminate].
    specialize (Hr r eq_refl). apply Qeq_bool_false in Hr. rewrite Hr.
    split; eexists; reflexivity.
  - intros m r -> -> Hz. rewrite (Qeq_eq_bool _ _ Hz). split; reflexivity.
Qed.

End MemoryQuotient.

Section MemoryQuotientRun.

Local Open Scope Q_scope.

Lemma memory_quotient_fault_free_witness :
  ((forall r, Some (8589934592 : Q) = Some r -> ~ r == 0)
   \/ Some (3221225472 : Q) = None) /\
  (exists ws, get_warnings
     (Fixtures.with_fields (Some 8589934592) (Some 3221225472) (Some 80))
     = Ok ws) /\
  (exists line, get_mem_summary Fixtures.plain_utils
     (Fixtures.with_fields (Some 8589934592) (Some 3221225472) (Some 80))
     = Ok line).
Proof.
  assert (H : (forall r, Some (8589934592 : Q) = Some r -> ~ r == 0)
              \/ Some (3221225472 : Q) = None).
  { left. intros r [= <-]. vm_compute. discriminate. }
  split; [exact H|].
  exact (proj1 (memory_quotient_fault_free Fixtures.plain_utils
           (Fixtures.with_fields (Some 8589934592) (Some 3221225472) (Some 80)))
         H).
Defined.

(** A pending job has no node, so its requested memory per node is 0; once
    the gateway holds a peak sample for it, the warnings cannot be built. *)
Example pending_job_with_sample :
  get_req_mem_bytes (Fixtures.bare "2002" Fixtures.pending_job None) = Ok 0 /\
  outcome (init Fixtures.sample_db "2002" (Some Fixtures.stub_gateway))
    = Raise ZeroDivisionError.
Proof. split; vm_compute; reflexivity. Qed.

End MemoryQuotientRun.

(** ** Traced computations *)

Section Traces.

Lemma mbind_ok {A B} (a : A) (k : A -> result B) : Ok a ≫= k = k a.
Proof. reflexivity. Qed.

Lemma tbind_ok {A B} (t : traced A) (k : A -> traced B) (b : B) :
  outcome (t ≫= k) = Ok b ->
  exists a, outcome t = Ok a /\ outcome (k a) = Ok b /\
            trace (t ≫= k) = trace t ++ trace (k a).
Proof.
  unfold mbind, traced_bind, tbind.
  destruct (outcome t) as [a|e]; simpl; [|discriminate].
  intros H. exists a. auto.
Qed.

Lemma tbind_run {A B} (t : traced A) (k : A -> traced B) (a : A) :
  outcome t = Ok a ->
  t ≫= k = Traced (trace t ++ trace (k a)) (outcome (k a)).
Proof. intros H. unfold mbind, traced_bind, tbind. rewrite H. reflexivity. Qed.

Lemma tbind_raise {A B} (t : traced A) (k : A -> traced B) (e : exn) :
  outcome t = Raise e -> t ≫= k = Traced (trace t) (Raise e).
Proof. intros H. unfold mbind, traced_bind, tbind. rewrite H. reflexivity. Qed.

Lemma not_in_true (x : string) (l : list string) :
  not_in x l = true <-> ~ In x l.
Proof.
  unfold not_in. rewrite negb_true_iff. split.
  - intros H Hin. assert (existsb (String.eqb x) l = true); [|congruence].
    apply existsb_exists. exists x. split; [exact Hin | apply String.eqb_refl].
  - intros H. destruct (existsb (String.eqb x) l) eqn:E; [|reflexivity].
    apply existsb_exists in E. destruct E as [y [Hy Heq]].
    apply String.eqb_eq in Heq. subst y. contradiction.
Qed.

Lemma not_in_false (x : string) (l : list string) :
  not_in x l = false <-> In x l.
Proof.
  split.
  - intros H. destruct (in_dec String.string_dec x l) as [Hin|Hout]; [exact Hin|].
    apply not_in_true in Hout. congruence.
  - intros Hin. destruct (not_in x l) eqn:E; [|reflexivity].
    apply not_in_true in E. contradiction.
Qed.

(** The calls of [get_raw_id] go to the accounting database only. *)
Lemma get_raw_id_trace (db : SlurmDb) (job_id : string) :
  trace (get_raw_id db job_id) = []
  \/ exists ids, trace (get_raw_id db job_id) = [DbJobsLoad ids].
Proof.
  unfold get_raw_id.
  destruct (contains "_" job_id).
  - destruct (split "_" job_id) as [|a [|t [|x rest]]];
      try (left; reflexivity).
    right. exists [a].
    unfold mbind, traced_bind, tbind, calling, pure. simpl.
    destruct (Jobs_load db [a]) as [jobs|e]; simpl; [|reflexivity].
    destruct (scan_tasks jobs t None) as [[r|]|e]; reflexivity.
  - left. destruct (contains "+" job_id).
    + destruct (split "+" job_id) as [|a [|t [|x rest]]]; try reflexivity.
      unfold mbind at 1, traced_bind, tbind, pure. simpl.
      destruct (int a) as [za|e]; [|reflexivity].
      destruct (int t) as [zt|e]; reflexivity.
    + destruct (isdigit job_id); [|reflexivity].
      unfold mbind at 1, traced_bind, tbind, pure. simpl.
      destruct (int job_id) as [z|e]; reflexivity.
Qed.

(** The calls of [get_lustre_stats] are at most the filesystem query. *)
Lemma get_lustre_stats_trace (self : JobSummary) :
  trace (get_lustre_stats self) = []
  \/ trace (get_lustre_stats self) = [InfluxLustre (influxid self)].
Proof.
  unfold get_lustre_stats.
  destruct (influxquery self) as [g|]; [right | left; reflexivity].
  unfold mbind, traced_bind, tbind, calling, pure. simpl.
  destruct (get_lustre_jobstats g (influxid self)) as [data|e]; simpl;
    [|reflexivity].
  destruct (map_fold _ _ data); reflexivity.
Qed.

(** What a successful [__init__] went through. *)
Lemma init_ok (db : SlurmDb) (job_id : string) (iq : option InfluxQuery)
    (s : JobSummary) :
  outcome (init db job_id iq) = Ok s ->
  exists raw record req_mem max_mem avg_cpu lustre ws,
    let self := new_object job_id raw record iq in
    let filled :=
      set_summary_data self (collect self req_mem max_mem avg_cpu lustre) in
    outcome (get_raw_id db job_id) = Ok raw /\
    Job_load db raw = Ok record /\
    get_req_mem_bytes self = Ok req_mem /\
    outcome (get_max_mem_bytes self) = Ok max_mem /\
    outcome (get_user_cpu_percentage self) = Ok avg_cpu /\
    outcome (get_lustre_stats self) = Ok lustre /\
    get_warnings filled = Ok ws /\
    s = set_warnings filled ws /\
    trace (init db job_id iq) =
      trace (get_raw_id db job_id) ++ [DbJobLoad raw]
      ++ trace (get_max_mem_bytes self)
      ++ trace (get_user_cpu_percentage self)
      ++ trace (get_lustre_stats self).
Proof.
  unfold init. intros H.
  apply tbind_ok in H. destruct H as [raw [Hraw [H T1]]]. rewrite T1. clear T1.
  apply tbind_ok in H. destruct H as [record [Hrec [H T2]]]. rewrite T2. clear T2.
  apply tbind_ok in H. destruct H as [req_mem [Hreq [H T3]]]. rewrite T3. clear T3.
  apply tbind_ok in H. destruct H as [max_mem [Hmax [H T4]]]. rewrite T4. clear T4.
  apply tbind_ok in H. destruct H as [avg_cpu [Hcpu [H T5]]]. rewrite T5. clear T5.
  apply tbind_ok in H. destruct H as [lustre [Hlus [H T6]]]. rewrite T6. clear T6.
  apply tbind_ok in H. destruct H as [ws [Hws [H T7]]]. rewrite T7. clear T7.
  exists raw, record, req_mem, max_mem, avg_cpu, lustre, ws. cbv zeta.
  simpl in Hrec, Hreq, Hws, H. injection H as <-.
  repeat split; try assumption.
  simpl. rewrite !app_nil_r. reflexivity.
Qed.

End Traces.

(** ** Which source serves peak memory and average CPU *)

Section Sources.

Local Open Scope Q_scope.

Lemma get_max_mem_bytes_cases (self : JobSummary) :
  get_max_mem_bytes self =
  if finished self then
    Traced [] (Ok (Some (max_resident_memory (stats (db_data self)))))
  else match influxquery self with
       | Some g => Traced [InfluxMaxMem (influxid self)]
                          (get_max_mem g (influxid self))
       | None => Traced [] (Ok None)
       end.
Proof. unfold get_max_mem_bytes. destruct (finished self); reflexivity. Qed.

Lemma get_user_cpu_percentage_cases (self : JobSummary) :
  let elapsed := elapsed_cpu_time (stats (db_data self)) in
  get_user_cpu_percentage self =
  if finished self then
    Traced [] (Ok (Some
      (if Qeq_bool elapsed 0 then 0
       else foldl (fun acc step => acc + user_cpu_time (step_stats step)) 0
                  (steps (db_data self)) / elapsed * 100)))
  else match influxquery self with
       | Some g => Traced [InfluxAvgCpu (influxid self)]
                          (get_avg_cpu g (influxid self))
       | None => Traced [] (Ok None)
       end.
Proof.
  intros elapsed. unfold get_user_cpu_percentage. fold elapsed.
  destruct (finished self); [|reflexivity].
  destruct (Qeq_bool elapsed 0) eqn:E; [reflexivity|].
  unfold div. rewrite E. reflexivity.
Qed.

(** C1: in every constructed summary the peak-memory and average-CPU
    fields follow one rule.  A state outside the unfinished set takes both
    from the accounting record and sends the gateway neither query.  A
    state inside it, with a gateway, takes each field from its one gateway
    query, and without a gateway leaves both null with no query sent. *)
Theorem source_decision (db : SlurmDb) (job_id : string)
    (iq : option InfluxQuery) (s : JobSummary) :
  outcome (init db job_id iq) = Ok s ->
  let record := db_data s in
  let elapsed := elapsed_cpu_time (stats record) in
  let calls := trace (init db job_id iq) in
  (~ In (state record) UNFINISHED_STATES ->
     sd_max_mem (summary_data s) = Some (max_resident_memory (stats record)) /\
     sd_avg_cpu (summary_data s) =
       Some (if Qeq_bool elapsed 0 then 0
             else foldl (fun acc step => acc + user_cpu_time (step_stats step)) 0
                        (steps record) / elapsed * 100) /\
     List.filter is_max_mem_call calls = [] /\
     List.filter is_avg_cpu_call calls = []) /\
  (In (state record) UNFINISHED_STATES ->
     match iq with
     | Some g =>
         get_max_mem g (influxid s) = Ok (sd_max_mem (summary_data s)) /\
         get_avg_cpu g (influxid s) = Ok (sd_avg_cpu (summary_data s)) /\
         List.filter is_max_mem_call calls = [InfluxMaxMem (influxid s)] /\
         List.filter is_avg_cpu_call calls = [InfluxAvgCpu (influxid s)]
     | None =>
         sd_max_mem (summary_data s) = None /\
         sd_avg_cpu (summary_data s) = None /\
         List.filter is_max_mem_call calls = [] /\
         List.filter is_avg_cpu_call calls = []
     end).
Proof.
  intros H. apply init_ok in H.
  destruct H as (raw & record & req_mem & max_mem & avg_cpu & lustre & ws & H).
  cbv zeta in H.
  destruct H as (_ & _ & _ & Hmax & Hcpu & _ & _ & -> & ->).
  set (self := new_object job_id raw record iq) in *.
  cbn [set_warnings set_summary_data collect db_data summary_data influxid
       sd_max_mem sd_avg_cpu].
  change (db_data self) with record. change (influxid self) with (metrics_id job_id record).
  assert (Hraw : List.filter is_max_mem_call (trace (get_raw_id db job_id)) = []
                 /\ List.filter is_avg_cpu_call (trace (get_raw_id db job_id)) = []).
  { destruct (get_raw_id_trace db job_id) as [-> | [ids ->]]; split; reflexivity. }
  assert (Hlus : List.filter is_max_mem_call (trace (get_lustre_stats self)) = []
                 /\ List.filter is_avg_cpu_call (trace (get_lustre_stats self)) = []).
  { destruct (get_lustre_stats_trace self) as [-> | ->]; split; reflexivity. }
  destruct Hraw as [Hraw1 Hraw2]. destruct Hlus as [Hlus1 Hlus2].
  rewrite !List.filter_app, Hraw1, Hraw2, Hlus1, Hlus2.
  rewrite get_max_mem_bytes_cases in *.
  rewrite get_user_cpu_percentage_cases in *. cbv zeta in *.
  change (finished self) with (not_in (state record) UNFINISHED_STATES) in *.
  change (influxquery self) with iq in *.
  change (db_data self) with record in *.
  change (influxid self) with (metrics_id job_id record) in *.
  split.
  - intros Hout. apply not_in_true in Hout. rewrite Hout in *.
    simpl in Hmax, Hcpu. injection Hmax as <-. injection Hcpu as <-.
    repeat split; reflexivity.
  - intros Hin. apply not_in_false in Hin. rewrite Hin in *.
    destruct iq as [g|]; simpl in Hmax, Hcpu.
    + repeat split; try assumption; reflexivity.
    + injection Hmax as <-. injection Hcpu as <-. repeat split; reflexivity.
Qed.

End Sources.

Section SourcesRun.

Lemma source_decision_witness :
  outcome (init Fixtures.sample_db "3003" (Some Fixtures.stub_gateway))
    = Ok Fixtures.running_summary /\
  In (state (db_data Fixtures.running_summary)) UNFINISHED_STATES /\
  get_max_mem Fixtures.stub_gateway (influxid Fixtures.running_summary)
    = Ok (sd_max_mem (summary_data Fixtures.running_summary)) /\
  get_avg_cpu Fixtures.stub_gateway (influxid Fixtures.running_summary)
    = Ok (sd_avg_cpu (summary_data Fixtures.running_summary)) /\
  List.filter is_max_mem_call
    (trace (init Fixtures.sample_db "3003" (Some Fixtures.stub_gateway)))
    = [InfluxMaxMem (influxid Fixtures.running_summary)] /\
  List.filter is_avg_cpu_call
    (trace (init Fixtures.sample_db "3003" (Some Fixtures.stub_gateway)))
    = [InfluxAvgCpu (influxid Fixtures.running_summary)].
Proof.
  assert (H : outcome (init Fixtures.sample_db "3003" (Some Fixtures.stub_gateway))
              = Ok Fixtures.running_summary) by (vm_compute; reflexivity).
  assert (Hin : In (state (db_data Fixtures.running_summary)) UNFINISHED_STATES)
    by (simpl; auto).
  split; [exact H|]. split; [exact Hin|].
  exact (proj2 (source_decision _ _ _ _ H) Hin).
Defined.

End SourcesRun.

(** ** Peak memory of an unfinished job *)

Section UnfinishedPeak.

Lemma get_max_mem_no_sample (query : string -> result (list Memory.FluxTable))
    (job_id : string) :
  query (Memory.job_query job_id) = Ok [] ->
  Memory.get_max_mem query job_id = Ok None.
Proof. intros H. unfold Memory.get_max_mem. rewrite H. reflexivity. Qed.

(** The sample found is scaled from megabytes to bytes. *)
Lemma get_max_mem_sample (query : string -> result (list Memory.FluxTable))
    (job_id : string) (record : Memory.FluxRecord)
    (records : list Memory.FluxRecord) (tables : list Memory.FluxTable) :
  query (Memory.job_query job_id)
    = Ok ({| Memory.records := record :: records |} :: tables) ->
  Memory.get_max_mem query job_id
    = Ok (Some (Memory.get_value record * 1024 ^ 2)%Q).
Proof. intros H. unfold Memory.get_max_mem. rewrite H. reflexivity. Qed.

(** The text of the query: the search window of 7 days, the job id, and
    the last sample. *)
Lemma job_query_shape (job_id : string) :
  exists head middle,
    Memory.job_query job_id =
      head +:+ "|> range(start: -7d)" +:+ middle +:+ job_id +:+ dquote +:+ ")"
      +:+ String nl "    |> last()" +:+ String nl "    ".
Proof.
  exists (String nl "    from(bucket: " +:+ dquote +:+ "jobmon-stats" +:+ dquote
          +:+ ")" +:+ String nl "    ").
  exists (String nl "    |> filter(fn: (r) => r[" +:+ dquote +:+ "_measurement"
          +:+ dquote +:+ "] == " +:+ dquote +:+ "job_max_memory" +:+ dquote
          +:+ ")" +:+ String nl "    |> filter(fn: (r) => r[" +:+ dquote
          +:+ "job_id" +:+ dquote +:+ "] == " +:+ dquote).
  reflexivity.
Qed.

(** C6: for an unfinished job the peak-memory field is null, not zero,
    when no data is available: without a gateway no query is made and the
    value is null; with the gateway of memory.py, a last-sample query over
    the 7-day window that returns no sample gives null. *)
Theorem unfinished_peak_memory_null (self : JobSummary) :
  finished self = false ->
  (influxquery self = None ->
     get_max_mem_bytes self = Traced [] (Ok None)) /\
  (forall (gateway : InfluxQuery)
          (query : string -> result (list Memory.FluxTable)),
     influxquery self = Some gateway ->
     get_max_mem gateway = Memory.get_max_mem query ->
     query (Memory.job_query (influxid self)) = Ok [] ->
     get_max_mem_bytes self
       = Traced [InfluxMaxMem (influxid self)] (Ok None)) /\
  (exists head middle,
     Memory.job_query (influxid self) =
       head +:+ "|> range(start: -7d)" +:+ middle +:+ influxid self +:+ dquote
       +:+ ")" +:+ String nl "    |> last()" +:+ String nl "    ").
Proof.
  intros Hfin. rewrite get_max_mem_bytes_cases, Hfin. split; [|split].
  - intros ->. reflexivity.
  - intros gateway query -> Hg Hq. rewrite Hg.
    rewrite (get_max_mem_no_sample _ _ Hq). reflexivity.
  - apply job_query_shape.
Qed.

Lemma unfinished_peak_memory_null_witness :
  finished Fixtures.pending_self = false /\
  influxquery Fixtures.pending_self = Some Fixtures.empty_gateway /\
  get_max_mem_bytes Fixtures.pending_self
    = Traced [InfluxMaxMem (influxid Fixtures.pending_self)] (Ok None).
Proof.
  assert (Hfin : finished Fixtures.pending_self = false) by reflexivity.
  split; [exact Hfin|]. split; [reflexivity|].
  apply (proj1 (proj2 (unfinished_peak_memory_null Fixtures.pending_self Hfin))
           Fixtures.empty_gateway Fixtures.empty_query);
    reflexivity.
Defined.

End UnfinishedPeak.

(** ** Filesystem statistics *)

Section Lustre.

Local Open Scope Q_scope.

Lemma get_last_value_eq (data : lustre_data) (fs server field : string) :
  get_last_value data fs server field =
  match samples data fs server field with
  | None => Ok 0
  | Some values => last_item values
  end.
Proof.
  unfold get_last_value, samples, getitem.
  destruct (data !! fs) as [by_server|]; cbn; [|reflexivity].
  destruct (by_server !! server) as [by_field|]; cbn; [|reflexivity].
  destruct (by_field !! field) as [entry|]; cbn; [|reflexivity].
  destruct (entry !! "value") as [values|]; cbn; [|reflexivity].
  unfold last_item. destruct (last values); reflexivity.
Qed.

Lemma last_item_nonempty (values : list Q) :
  values <> [] -> exists v, last values = Some v /\ last_item values = Ok v.
Proof.
  intros Hne. unfold last_item.
  destruct (last values) as [v|] eqn:E; [exists v; auto|].
  apply last_None in E. contradiction.
Qed.

Lemma get_last_value_no_fault (data : lustre_data) (fs server field : string) :
  samples data fs server field <> Some [] ->
  exists v, get_last_value data fs server field = Ok v.
Proof.
  intros Hne. rewrite get_last_value_eq.
  destruct (samples data fs server field) as [values|]; [|eexists; reflexivity].
  destruct (last_item_nonempty values) as [v [_ Hv]]; [congruence|].
  exists v. exact Hv.
Qed.

Lemma fs_totals_ok (data : lustre_data) (fs : string) (totals : LustreTotals) :
  fs_totals data fs = Ok totals ->
  get_last_value data fs "oss" "read_bytes" = Ok (total_read totals) /\
  get_last_value data fs "oss" "write_bytes" = Ok (total_write totals) /\
  get_last_value data fs "mds" "iops" = Ok (total_iops totals).
Proof.
  unfold fs_totals.
  destruct (get_last_value data fs "oss" "read_bytes") as [r|]; cbn; [|discriminate].
  destruct (get_last_value data fs "oss" "write_bytes") as [w|]; cbn; [|discriminate].
  destruct (get_last_value data fs "mds" "iops") as [i|]; cbn; [|discriminate].
  intros [= <-]. auto.
Qed.

Lemma fs_totals_no_fault (data : lustre_data) (fs : string) :
  (forall server field, samples data fs server field <> Some []) ->
  exists totals, fs_totals data fs = Ok totals.
Proof.
  intros Hne. unfold fs_totals.
  destruct (get_last_value_no_fault data fs "oss" "read_bytes" (Hne _ _)) as [r ->].
  destruct (get_last_value_no_fault data fs "oss" "write_bytes" (Hne _ _)) as [w ->].
  destruct (get_last_value_no_fault data fs "mds" "iops" (Hne _ _)) as [i ->].
  eexists. reflexivity.
Qed.

(** The loop over the filesystems: on success every filesystem of the
    result has its totals and no other key appears; a fault is that of
    some filesystem's totals. *)
Lemma lustre_loop (data m : lustre_data) :
  match map_fold (fun fs _ acc => lustre_step data fs acc) (Ok ∅) m with
  | Ok stats =>
      forall fs, match m !! fs with
                 | Some _ => exists totals, fs_totals data fs = Ok totals /\
                                            stats !! fs = Some totals
                 | None => stats !! fs = None
                 end
  | Raise e => exists fs, is_Some (m !! fs) /\ fs_totals data fs = Raise e
  end.
Proof.
  apply (map_fold_weak_ind
    (fun (r : result (gmap string LustreTotals)) (m : lustre_data) =>
       match r with
       | Ok stats =>
           forall fs, match m !! fs with
                      | Some _ => exists totals, fs_totals data fs = Ok totals /\
                                                 stats !! fs = Some totals
                      | None => stats !! fs = None
                      end
       | Raise e => exists fs, is_Some (m !! fs) /\ fs_totals data fs = Raise e
       end)).
  - intros fs. rewrite !lookup_empty. reflexivity.
  - intros i x m' r Hi IH. unfold lustre_step.
    destruct r as [stats|e]; cbn.
    + destruct (fs_totals data i) as [totals|e] eqn:Et; cbn.
      * intros fs. destruct (decide (i = fs)) as [->|Hne].
        -- rewrite !lookup_insert_eq. exists totals. auto.
        -- rewrite !lookup_insert_ne by exact Hne. apply IH.
      * exists i. rewrite lookup_insert_eq. eauto.
    + destruct IH as [fs [Hsome He]]. exists fs. split; [|exact He].
      destruct (decide (i = fs)) as [->|Hne].
      * rewrite lookup_insert_eq. eauto.
      * rewrite lookup_insert_ne by exact Hne. exact Hsome.
Qed.

(** C8: each of the three fields of a filesystem is the last sample of the
    field's value sequence, and is 0 when a key on the way to the sequence
    is missing.  The summary keeps exactly the filesystems of the result,
    and with no empty value sequence it is produced without a fault. *)
Theorem lustre_last_samples (data : lustre_data) :
  (forall fs server field,
     get_last_value data fs server field =
     match samples data fs server field with
     | None => Ok 0
     | Some values => last_item values
     end) /\
  (forall self gateway stats,
     influxquery self = Some gateway ->
     get_lustre_jobstats gateway (influxid self) = Ok data ->
     outcome (get_lustre_stats self) = Ok (Some stats) ->
     forall fs,
       match data !! fs with
       | Some _ =>
           exists totals,
             stats !! fs = Some totals /\
             get_last_value data fs "oss" "read_bytes" = Ok (total_read totals) /\
             get_last_value data fs "oss" "write_bytes" = Ok (total_write totals) /\
             get_last_value data fs "mds" "iops" = Ok (total_iops totals)
       | None => stats !! fs = None
       end) /\
  (forall self gateway,
     influxquery self = Some gateway ->
     get_lustre_jobstats gateway (influxid self) = Ok data ->
     (forall fs server field, samples data fs server field <> Some []) ->
     exists stats,
       get_lustre_stats self
         = Traced [InfluxLustre (influxid self)] (Ok (Some stats))).
Proof.
  split; [|split].
  - intros fs server field. apply get_last_value_eq.
  - intros self gateway stats Hg Hdata Hok fs.
    unfold get_lustre_stats in Hok. rewrite Hg in Hok.
    unfold mbind, traced_bind, tbind, calling, pure in Hok. simpl in Hok.
    rewrite Hdata in Hok. simpl in Hok.
    pose proof (lustre_loop data data) as Hloop.
    destruct (map_fold _ _ data) as [stats'|e]; simpl in Hok; [|discriminate].
    injection Hok as <-. specialize (Hloop fs).
    destruct (data !! fs); [|exact Hloop].
    destruct Hloop as [totals [Ht Hs]]. exists totals.
    split; [exact Hs|]. apply fs_totals_ok, Ht.
  - intros self gateway Hg Hdata Hne.
    unfold get_lustre_stats. rewrite Hg.
    unfold mbind, traced_bind, tbind, calling, pure. simpl.
    rewrite Hdata. simpl.
    pose proof (lustre_loop data data) as Hloop.
    destruct (map_fold _ _ data) as [stats|e]; simpl.
    + exists stats. reflexivity.
    + destruct Hloop as [fs [_ He]].
      destruct (fs_totals_no_fault data fs (Hne fs)) as [totals Ht]. congruence.
Qed.

Lemma lustre_last_samples_witness :
  influxquery Fixtures.running_self = Some Fixtures.stub_gateway /\
  get_lustre_jobstats Fixtures.stub_gateway (influxid Fixtures.running_self)
    = Ok Fixtures.sample_lustre /\
  outcome (get_lustre_stats Fixtures.running_self)
    = Ok (Some Fixtures.running_lustre_stats) /\
  match Fixtures.sample_lustre !! "dagg"%string with
  | Some _ =>
      exists totals,
        Fixtures.running_lustre_stats !! "dagg"%string = Some totals /\
        get_last_value Fixtures.sample_lustre "dagg" "oss" "read_bytes"
          = Ok (total_read totals) /\
        get_last_value Fixtures.sample_lustre "dagg" "oss" "write_bytes"
          = Ok (total_write totals) /\
        get_last_value Fixtures.sample_lustre "dagg" "mds" "iops"
          = Ok (total_iops totals)
  | None => Fixtures.running_lustre_stats !! "dagg"%string = None
  end.
Proof.
  assert (H1 : influxquery Fixtures.running_self = Some Fixtures.stub_gateway)
    by reflexivity.
  assert (H2 : get_lustre_jobstats Fixtures.stub_gateway
                 (influxid Fixtures.running_self) = Ok Fixtures.sample_lustre)
    by reflexivity.
  assert (H3 : outcome (get_lustre_stats Fixtures.running_self)
               = Ok (Some Fixtures.running_lustre_stats))
    by (vm_compute; reflexivity).
  split; [exact H1|]. split; [exact H2|]. split; [exact H3|].
  exact (proj1 (proj2 (lustre_last_samples Fixtures.sample_lustre))
           Fixtures.running_self Fixtures.stub_gateway
           Fixtures.running_lustre_stats H1 H2 H3 "dagg"%string).
Defined.

(** The holes of the sample result read as 0, its samples as their last. *)
Example sample_lustre_totals :
  Fixtures.running_lustre_stats !! "dagg"%string
    = Some {| total_read := 30; total_write := 0; total_iops := 0 |} /\
  Fixtures.running_lustre_stats !! "home"%string
    = Some {| total_read := 2; total_write := 5; total_iops := 8 |}.
Proof. split; vm_compute; reflexivity. Qed.

(** An empty value sequence is not a missing key: the fault is not caught. *)
Example empty_sequence_faults :
  get_last_value {[ "dagg"%string :=
                      {[ "oss"%string :=
                           {[ "read_bytes"%string := {[ "value"%string := [] ]} ]} ]} ]}
                 "dagg" "oss" "read_bytes"
  = Raise IndexError.
Proof. vm_compute. reflexivity. Qed.

End Lustre.

(** ** Strings of digits *)

Section Digits.

Lemma is_digit_not (c a : ascii) :
  is_digit c = false -> is_digit a = true -> Ascii.eqb a c = false.
Proof.
  intros Hc Ha. destruct (Ascii.eqb_spec a c) as [->|]; [congruence | reflexivity].
Qed.

Lemma string_of_uint_avoids (c : ascii) (d : Decimal.uint) :
  is_digit c = false -> contains c (NilEmpty.string_of_uint d) = false.
Proof.
  intros Hc.
  induction d; cbn [contains NilEmpty.string_of_uint]; [reflexivity|..];
    rewrite IHd, orb_false_r; apply (is_digit_not c); auto.
Qed.

Lemma digit_not_space (a : ascii) : is_digit a = true -> is_space a = false.
Proof.
  destruct a as [[] [] [] [] [] [] [] []]; intros H;
    vm_compute in H; try discriminate H; reflexivity.
Qed.

Lemma digit_char (a : ascii) (d : Decimal.uint) :
  is_digit a = true -> exists d', uint_of_char a (Some d) = Some d'.
Proof.
  destruct a as [[] [] [] [] [] [] [] []]; intros H;
    vm_compute in H; try discriminate H; eexists; reflexivity.
Qed.

(** Every character of the string is a decimal digit. *)
Lemma all_digits_cons (a : ascii) (s : string) :
  forallb is_digit (String.list_ascii_of_string (String a s)) = true <->
  is_digit a = true /\ forallb is_digit (String.list_ascii_of_string s) = true.
Proof. cbn [String.list_ascii_of_string forallb]. apply andb_true_iff. Qed.

Lemma all_digits_avoids (c : ascii) (s : string) :
  is_digit c = false ->
  forallb is_digit (String.list_ascii_of_string s) = true ->
  contains c s = false.
Proof.
  intros Hc. induction s as [|a s IH]; [reflexivity|].
  intros H. apply all_digits_cons in H. destruct H as [Ha Hs].
  cbn [contains]. rewrite (is_digit_not c a Hc Ha), (IH Hs). reflexivity.
Qed.

Lemma all_digits_lstrip (s : string) :
  forallb is_digit (String.list_ascii_of_string s) = true -> lstrip_space s = s.
Proof.
  destruct s as [|a s]; [reflexivity|]. intros H.
  apply all_digits_cons in H. destruct H as [Ha _].
  cbn [lstrip_space]. rewrite (digit_not_space a Ha). reflexivity.
Qed.

Lemma all_digits_rstrip (s : string) :
  forallb is_digit (String.list_ascii_of_string s) = true -> rstrip_space s = s.
Proof.
  induction s as [|a s IH]; [reflexivity|]. intros H.
  apply all_digits_cons in H. destruct H as [Ha Hs].
  cbn [rstrip_space]. rewrite (IH Hs), (digit_not_space a Ha).
  destruct s; reflexivity.
Qed.

Lemma all_digits_uint (s : string) :
  forallb is_digit (String.list_ascii_of_string s) = true ->
  exists d, NilEmpty.uint_of_string s = Some d.
Proof.
  induction s as [|a s IH]; [exists Decimal.Nil; reflexivity|]. intros H.
  apply all_digits_cons in H. destruct H as [Ha Hs].
  destruct (IH Hs) as [d Hd]. cbn [NilEmpty.uint_of_string]. rewrite Hd.
  apply digit_char, Ha.
Qed.

(** Digits alone are not regrouped. *)
Lemma ungroup_after_digits (prev : ascii) (s : string) :
  Ascii.eqb prev "_" = false ->
  forallb is_digit (String.list_ascii_of_string s) = true ->
  ungroup_after prev s = Some s.
Proof.
  revert prev. induction s as [|a s IH]; intros prev Hprev H.
  - cbn [ungroup_after]. rewrite Hprev. reflexivity.
  - apply all_digits_cons in H. destruct H as [Ha Hs].
    pose proof (is_digit_not "_" a eq_refl Ha) as Hu.
    cbn [ungroup_after]. rewrite Hu, (IH a Hu Hs). reflexivity.
Qed.

Lemma ungroup_digits (s : string) :
  forallb is_digit (String.list_ascii_of_string s) = true -> ungroup s = Some s.
Proof.
  destruct s as [|a s]; [reflexivity|]. intros H. unfold ungroup.
  pose proof (proj1 (proj1 (all_digits_cons a s) H)) as Ha.
  pose proof (is_digit_not "_" a eq_refl Ha) as Hu.
  rewrite Hu. apply (ungroup_after_digits a _ Hu H).
Qed.

Lemma number_digits (s : string) (d : Decimal.uint) :
  s <> EmptyString ->
  forallb is_digit (String.list_ascii_of_string s) = true ->
  len s <= MAX_STR_DIGITS ->
  NilEmpty.uint_of_string s = Some d ->
  number s = Some (Z.of_N (N.of_uint d)).
Proof.
  intros Hne Hall Hlen Hd. unfold number. rewrite (ungroup_digits s Hall).
  cbn [mbind option_bind].
  destruct (Z.ltb_spec MAX_STR_DIGITS (len s)); [lia|].
  unfold digits_value. rewrite Hd. destruct s; [congruence | reflexivity].
Qed.

(** A stripped text without a sign is read as a number. *)
Lemma int_unsigned (s : string) (v : Z) :
  lstrip_space s = s -> rstrip_space s = s ->
  (forall ds, s <> String "-" ds) -> (forall ds, s <> String "+" ds) ->
  number s = Some v -> int s = Ok v.
Proof.
  intros Hl Hr Hminus Hplus Hn. unfold int. rewrite Hl, Hr. cbv zeta.
  destruct s as [|a s']; [rewrite Hn; reflexivity|].
  destruct a as [[] [] [] [] [] [] [] []];
    try (cbv beta iota; rewrite Hn; reflexivity);
    exfalso; first [ eapply Hminus; reflexivity | eapply Hplus; reflexivity ].
Qed.

(** [int] reads every non-empty string of digits within the limit, as a
    number >= 0. *)
Lemma int_all_digits (s : string) (d : Decimal.uint) :
  s <> EmptyString ->
  forallb is_digit (String.list_ascii_of_string s) = true ->
  len s <= MAX_STR_DIGITS ->
  NilEmpty.uint_of_string s = Some d ->
  int s = Ok (Z.of_N (N.of_uint d)).
Proof.
  intros Hne Hall Hlen Hd.
  apply int_unsigned;
    [ apply all_digits_lstrip, Hall | apply all_digits_rstrip, Hall | | |
      apply number_digits; assumption ];
    intros ds ->; apply all_digits_cons in Hall; destruct Hall as [Ha _];
    discriminate Ha.
Qed.

Lemma int_digits (s : string) :
  isdigit s = true -> len s <= MAX_STR_DIGITS ->
  exists n, 0 <= n /\ int s = Ok n.
Proof.
  intros H Hlen.
  assert (Hne : s <> EmptyString) by (destruct s; [discriminate | congruence]).
  assert (Hall : forallb is_digit (String.list_ascii_of_string s) = true)
    by (destruct s; [discriminate | exact H]).
  destruct (all_digits_uint _ Hall) as [d Hd].
  exists (Z.of_N (N.of_uint d)). split; [lia|].
  apply int_all_digits; assumption.
Qed.

Lemma to_uint_nonnil (n : N) : N.to_uint n <> Decimal.Nil.
Proof.
  destruct n as [|p]; simpl; [discriminate|].
  apply DecimalPos.Unsigned.to_uint_nonnil.
Qed.

Lemma str_nonneg (z : Z) :
  0 <= z -> str z = NilEmpty.string_of_uint (N.to_uint (Z.to_N z)).
Proof.
  intros Hz. unfold str. destruct (Z.ltb_spec z 0); [lia | reflexivity].
Qed.

Lemma string_of_uint_digits (d : Decimal.uint) :
  forallb is_digit (String.list_ascii_of_string (NilEmpty.string_of_uint d)) = true.
Proof.
  induction d; [reflexivity|..];
    cbn [NilEmpty.string_of_uint]; apply all_digits_cons;
    (split; [reflexivity | exact IHd]).
Qed.

Lemma str_nonempty (z : Z) : 0 <= z -> str z <> EmptyString.
Proof.
  intros Hz. rewrite (str_nonneg z Hz).
  pose proof (to_uint_nonnil (Z.to_N z)) as Hnil.
  destruct (N.to_uint (Z.to_N z)); [congruence|..]; discriminate.
Qed.

Lemma isdigit_str (n : Z) : 0 <= n -> isdigit (str n) = true.
Proof.
  intros Hn. pose proof (str_nonempty n Hn) as Hne.
  rewrite (str_nonneg n Hn) in *.
  pose proof (string_of_uint_digits (N.to_uint (Z.to_N n))) as Hall.
  destruct (NilEmpty.string_of_uint (N.to_uint (Z.to_N n)));
    [congruence | exact Hall].
Qed.

(** [int(str(z))] gives [z] back, within the digit limit. *)
Lemma int_str (z : Z) :
  0 <= z -> len (str z) <= MAX_STR_DIGITS -> int (str z) = Ok z.
Proof.
  intros Hz Hlen. pose proof (str_nonempty z Hz) as Hne.
  rewrite (str_nonneg z Hz) in *.
  rewrite (int_all_digits _ (N.to_uint (Z.to_N z)) Hne
             (string_of_uint_digits _) Hlen (NilEmpty.usu _)).
  rewrite DecimalN.Unsigned.of_to, Z2N.id by exact Hz. reflexivity.
Qed.

Lemma str_avoids (c : ascii) (z : Z) :
  0 <= z -> is_digit c = false -> contains c (str z) = false.
Proof.
  intros Hz Hc. rewrite (str_nonneg z Hz). apply string_of_uint_avoids, Hc.
Qed.

Lemma contains_app_sep (sep : ascii) (a b : string) :
  contains sep (a +:+ String sep b) = true.
Proof.
  induction a as [|c a IH]; simpl.
  - rewrite Ascii.eqb_refl. reflexivity.
  - rewrite IH. apply orb_true_r.
Qed.

Lemma split_no_sep (sep : ascii) (s : string) :
  contains sep s = false -> split sep s = [s].
Proof.
  induction s as [|c s IH]; simpl; [reflexivity|].
  intros H. apply orb_false_iff in H. destruct H as [Hc Hs].
  rewrite Hc, (IH Hs). reflexivity.
Qed.

Lemma split_app_sep (sep : ascii) (a b : string) :
  contains sep a = false ->
  split sep (a +:+ String sep b) = a :: split sep b.
Proof.
  induction a as [|c a IH]; simpl.
  - intros _. rewrite Ascii.eqb_refl. reflexivity.
  - intros H. apply orb_false_iff in H. destruct H as [Hc Ha].
    rewrite Hc, (IH Ha). reflexivity.
Qed.

End Digits.

(** ** Array tasks *)

Section ArrayTasks.





(** Task 2 of array 500 resolves to raw id 502 and keeps its metrics id;
    a task that is not in the array is not found. *)
Example array_task_found :
  outcome (get_raw_id Fixtures.sample_db "500_2") = Ok 502 /\
  (s ← outcome (init Fixtures.sample_db "500_2" None); Ok (influxid s))
    = Ok "500_2" /\
  outcome (get_raw_id Fixtures.sample_db "500_9")
    = Raise (KeyError "Job ID 500_9 not found").
Proof. repeat split; vm_compute; reflexivity. Qed.

(** A task id spelled with a leading zero finds the same record; the
    metrics id is then spelled from the record. *)
Example array_task_spelling :
  outcome (get_raw_id Fixtures.sample_db "500_02") = Ok 502 /\
  (s ← outcome (init Fixtures.sample_db "500_02" None); Ok (influxid s))
    = Ok "500_2".
Proof. split; vm_compute; reflexivity. Qed.

End ArrayTasks.

(** ** Strings: lengths and lines *)

Section StringFacts.

Lemma append_assoc (a b c : string) : (a +:+ b) +:+ c = a +:+ (b +:+ c).
Proof.
  induction a as [|x a IH]; [reflexivity|].
  change (String x ((a +:+ b) +:+ c) = String x (a +:+ (b +:+ c))).
  rewrite IH. reflexivity.
Qed.

Lemma len_append (a b : string) : len (a +:+ b) = len a + len b.
Proof.
  unfold len. induction a as [|x a IH].
  - change (EmptyString +:+ b) with b. cbn [String.length]. lia.
  - change (String x a +:+ b) with (String x (a +:+ b)).
    cbn [String.length]. lia.
Qed.

Lemma len_cons (x : ascii) (s : string) : len (String x s) = 1 + len s.
Proof. unfold len. cbn [String.length]. lia. Qed.

Lemma len_nonneg (s : string) : 0 <= len s.
Proof. unfold len. lia. Qed.

Lemma length_replicated (c : ascii) (k : nat) :
  String.length (String.string_of_list_ascii (replicate k c)) = k.
Proof. induction k as [|k IH]; simpl; [reflexivity | f_equal; exact IH]. Qed.

Lemma len_str_mul (c : ascii) (n : Z) : len (str_mul c n) = Z.max 0 n.
Proof. unfold len, str_mul. rewrite length_replicated. lia. Qed.

Lemma replicated_snoc (c : ascii) (k : nat) :
  String.string_of_list_ascii (replicate k c) +:+ String c EmptyString
  = String.string_of_list_ascii (replicate (S k) c).
Proof.
  induction k as [|k IH]; [reflexivity|].
  change (String c (String.string_of_list_ascii (replicate k c)
                    +:+ String c EmptyString)
          = String c (String.string_of_list_ascii (replicate (S k) c))).
  rewrite IH. reflexivity.
Qed.

Lemma str_mul_succ (c : ascii) (n : Z) :
  0 <= n -> str_mul c n +:+ String c EmptyString = str_mul c (n + 1).
Proof.
  intros Hn. unfold str_mul. rewrite replicated_snoc.
  replace (Z.to_nat (n + 1)) with (S (Z.to_nat n)) by lia. reflexivity.
Qed.

Lemma len_ljust (s : string) (width : Z) :
  len (ljust s width) = Z.max (len s) width.
Proof. unfold ljust. rewrite len_append, len_str_mul. lia. Qed.

Lemma contains_append (c : ascii) (a b : string) :
  contains c (a +:+ b) = contains c a || contains c b.
Proof.
  induction a as [|x a IH]; [reflexivity|].
  change (String x a +:+ b) with (String x (a +:+ b)).
  cbn [contains]. rewrite IH, orb_assoc. reflexivity.
Qed.

Lemma contains_str_mul (c x : ascii) (n : Z) :
  Ascii.eqb x c = false -> contains c (str_mul x n) = false.
Proof.
  intros Hx. unfold str_mul.
  induction (Z.to_nat n) as [|k IH]; [reflexivity|].
  cbn [replicate String.string_of_list_ascii contains]. rewrite Hx, IH. reflexivity.
Qed.

Lemma split_nonempty (sep : ascii) (s : string) : split sep s <> [].
Proof.
  destruct s as [|x s]; cbn [split]; [discriminate|].
  destruct (Ascii.eqb x sep); [discriminate|].
  destruct (split sep s); discriminate.
Qed.

(** The parts of a split do not hold the separator. *)
Lemma split_parts_clean (sep : ascii) (s part : string) :
  In part (split sep s) -> contains sep part = false.
Proof.
  revert part. induction s as [|x s IH]; intros part; cbn [split].
  - intros [<-|[]]. reflexivity.
  - destruct (Ascii.eqb x sep) eqn:E.
    + intros [<-|Hin]; [reflexivity | apply IH, Hin].
    + destruct (split sep s) as [|w ws].
      * intros [<-|[]]. cbn [contains]. rewrite E. reflexivity.
      * intros [<-|Hin].
        -- cbn [contains]. rewrite E. apply IH. left. reflexivity.
        -- apply IH. right. exact Hin.
Qed.

(** Splitting a join of separator-free lines gives the lines back. *)
Lemma split_join (sep : ascii) (lines : list string) :
  lines <> [] ->
  (forall line, In line lines -> contains sep line = false) ->
  split sep (join (String sep EmptyString) lines) = lines.
Proof.
  induction lines as [|line rest IH]; [congruence|]. intros _ Hclean.
  destruct rest as [|next rest].
  - cbn [join String.concat]. apply split_no_sep, Hclean. left. reflexivity.
  - change (join (String sep EmptyString) (line :: next :: rest))
      with (line +:+ String sep (join (String sep EmptyString) (next :: rest))).
    rewrite split_app_sep by (apply Hclean; left; reflexivity).
    rewrite IH; [reflexivity | discriminate|].
    intros l Hl. apply Hclean. right. exact Hl.
Qed.

Lemma foldl_max_ge (xs : list Z) (x : Z) : x <= foldl Z.max x xs.
Proof.
  revert x. induction xs as [|y ys IH]; intros x; cbn [foldl]; [lia|].
  specialize (IH (Z.max x y)). lia.
Qed.

Lemma foldl_max_bound (xs : list Z) (x y : Z) :
  In y xs -> y <= foldl Z.max x xs.
Proof.
  revert x. induction xs as [|z zs IH]; intros x; [intros []|].
  cbn [foldl]. intros [<-|Hin].
  - pose proof (foldl_max_ge zs (Z.max x z)). lia.
  - apply IH, Hin.
Qed.

Lemma foldl_max_attained (xs : list Z) (x : Z) :
  foldl Z.max x xs = x \/ In (foldl Z.max x xs) xs.
Proof.
  revert x. induction xs as [|z zs IH]; intros x; cbn [foldl]; [left; reflexivity|].
  destruct (IH (Z.max x z)) as [E|Hin].
  - rewrite E. destruct (Z.max_spec x z) as [[_ ->]|[_ ->]];
      [right; left; reflexivity | left; reflexivity].
  - right. right. exact Hin.
Qed.

(** [max] of a non-empty list is its greatest element. *)
Lemma max_list_spec (l : list Z) :
  l <> [] ->
  exists m, max_list l = Ok m /\ In m l /\ forall y, In y l -> y <= m.
Proof.
  destruct l as [|x xs]; [congruence|]. intros _.
  exists (foldl Z.max x xs). split; [reflexivity|]. split.
  - destruct (foldl_max_attained xs x) as [->|Hin]; [left; reflexivity|].
    right. exact Hin.
  - intros y [<-|Hin]; [apply foldl_max_ge | apply foldl_max_bound, Hin].
Qed.

End StringFacts.

(** ** The frame of the report *)

Section Framing.

Lemma halves (n : Z) :
  0 <= n -> 0 <= n / 2 /\ 0 <= n mod 2 < 2 /\ n = 2 * (n / 2) + n mod 2.
Proof.
  intros Hn. split; [apply Z.div_pos; lia|]. split.
  - apply Z.mod_pos_bound. lia.
  - apply Z.div_mod. lia.
Qed.

Lemma title_border_eq (title : string) (max_len : Z) :
  len title <= max_len ->
  title_border title max_len =
    "+" +:+ str_mul "-" ((max_len - len title) / 2) +:+ " " +:+ title +:+ " "
    +:+ str_mul "-" ((max_len - len title) / 2 + (max_len - len title) mod 2)
    +:+ "+".
Proof.
  intros Hle. unfold title_border. cbv zeta.
  destruct (halves (max_len - len title)) as (Hdiv & Hmod & _); [lia|].
  destruct (Z.eqb_spec ((max_len - len title) mod 2) 1) as [E|E].
  - rewrite E. rewrite <- (str_mul_succ "-" _ Hdiv). reflexivity.
  - replace ((max_len - len title) mod 2) with 0 by lia.
    rewrite Z.add_0_r. reflexivity.
Qed.

Lemma len_title_border (title : string) (max_len : Z) :
  len title <= max_len -> len (title_border title max_len) = max_len + 4.
Proof.
  intros Hle. rewrite (title_border_eq title max_len Hle).
  destruct (halves (max_len - len title)) as (Hdiv & Hmod & Hsum); [lia|].
  rewrite !len_append, !len_str_mul.
  change (len "+") with 1. change (len " ") with 1. lia.
Qed.

Lemma len_bottom_border (max_len : Z) :
  0 <= max_len -> len (bottom_border_of max_len) = max_len + 4.
Proof.
  intros H. unfold bottom_border_of. rewrite !len_append, len_str_mul.
  change (len "+") with 1. lia.
Qed.

Lemma boxed_eq (max_len : Z) (line : string) :
  boxed max_len line =
    "| " +:+ line +:+ str_mul " " (max_len - len line) +:+ " |".
Proof. unfold boxed, ljust. rewrite append_assoc. reflexivity. Qed.

Lemma len_boxed (max_len : Z) (line : string) :
  len line <= max_len -> len (boxed max_len line) = max_len + 4.
Proof.
  intros Hle. unfold boxed. rewrite !len_append, len_ljust.
  change (len "| ") with 2. change (len " |") with 2. lia.
Qed.

(** The frame of a non-empty list of lines. *)
Lemma frame_ok (title : string) (lines : list string) :
  lines <> [] ->
  exists longest,
    max_list (map len lines) = Ok longest /\
    (forall line, In line lines -> len line <= longest) /\
    (exists line, In line lines /\ len line = longest) /\
    report_width title lines = Ok (Z.max longest (len title)) /\
    frame title lines =
      Ok (title_border title (Z.max longest (len title))
          :: map (boxed (Z.max longest (len title))) lines
          ++ [bottom_border_of (Z.max longest (len title))]).
Proof.
  intros Hne.
  destruct (max_list_spec (map len lines)) as (longest & Hmax & Hin & Hbound).
  { destruct lines; [congruence | discriminate]. }
  exists longest. split; [exact Hmax|]. split; [|split; [|split]].
  - intros line Hline. apply Hbound. apply in_map. exact Hline.
  - apply in_map_iff in Hin. destruct Hin as (line & Hlen & Hline).
    exists line. auto.
  - unfold report_width. rewrite Hmax. reflexivity.
  - unfold frame, report_width. rewrite Hmax. reflexivity.
Qed.

Variable utils : Helpers.

Lemma content_lines_split (self : JobSummary) (lines : list string) :
  content_lines utils self = Ok lines ->
  lines <> [] /\ forall line, In line lines -> contains nl line = false.
Proof.
  unfold content_lines.
  destruct (get_mem_summary utils self) as [mem|]; cbn; [|discriminate].
  destruct (get_cpu_summary utils self) as [cpu|]; cbn; [|discriminate].
  destruct (get_time_summary utils self) as [time|]; cbn; [|discriminate].
  destruct (get_lustre_summary utils self) as [lustre|]; cbn; [|discriminate].
  intros [= <-]. split; [apply split_nonempty|].
  intros line. apply split_parts_clean.
Qed.

(** The frame of a rendered report, around the title [title_of] builds. *)
Lemma framing_of_report (self : JobSummary) (report : string) :
  get_full_summary utils self = Ok report ->
  let title := title_of self in
  exists lines longest max_len,
    content_lines utils self = Ok lines /\
    max_list (map len lines) = Ok longest /\
    (forall line, In line lines -> len line <= longest) /\
    (exists line, In line lines /\ len line = longest) /\
    max_len = Z.max longest (len title) /\
    report = join (String nl "")
               (title_border title max_len :: map (boxed max_len) lines
                ++ [bottom_border_of max_len]) /\
    title_border title max_len =
      "+" +:+ str_mul "-" ((max_len - len title) / 2) +:+ " " +:+ title +:+ " "
      +:+ str_mul "-" ((max_len - len title) / 2 + (max_len - len title) mod 2)
      +:+ "+" /\
    bottom_border_of max_len = "+" +:+ str_mul "-" (max_len + 2) +:+ "+" /\
    len (title_border title max_len) = max_len + 4 /\
    len (bottom_border_of max_len) = max_len + 4 /\
    (forall line, In line lines ->
       boxed max_len line
         = "| " +:+ line +:+ str_mul " " (max_len - len line) +:+ " |" /\
       len (boxed max_len line) = max_len + 4) /\
    (contains nl title = false ->
     split nl report =
       title_border title max_len :: map (boxed max_len) lines
       ++ [bottom_border_of max_len]).
Proof.
  intros H title. unfold get_full_summary in H.
  destruct (content_lines utils self) as [lines|] eqn:Hlines; cbn in H;
    [|discriminate].
  destruct (content_lines_split self lines Hlines) as [Hne Hclean].
  destruct (frame_ok title lines Hne)
    as (longest & Hmax & Hbound & Hattained & _ & Hframe).
  fold title in H. rewrite Hframe in H. cbn in H. injection H as <-.
  set (max_len := Z.max longest (len title)) in *.
  assert (Htitle : len title <= max_len) by (unfold max_len; lia).
  assert (Hpos : 0 <= max_len) by (pose proof (len_nonneg title); lia).
  assert (Hline : forall line, In line lines -> len line <= max_len).
  { intros line Hin. specialize (Hbound line Hin). unfold max_len. lia. }
  exists lines, longest, max_len.
  split; [reflexivity|]. split; [exact Hmax|]. split; [exact Hbound|].
  split; [exact Hattained|]. split; [reflexivity|]. split; [reflexivity|].
  split; [apply title_border_eq, Htitle|]. split; [reflexivity|].
  split; [apply len_title_border, Htitle|].
  split; [apply len_bottom_border, Hpos|]. split.
  - intros line Hin. split; [apply boxed_eq | apply len_boxed, Hline, Hin].
  - intros Hnl.
    change (split nl (join (String nl "")
                        (title_border title max_len :: map (boxed max_len) lines
                         ++ [bottom_border_of max_len]))
            = title_border title max_len :: map (boxed max_len) lines
              ++ [bottom_border_of max_len]).
    apply split_join; [discriminate|].
    intros line [<-|Hin].
    + rewrite (title_border_eq title max_len Htitle).
      rewrite !contains_append, Hnl.
      rewrite !contains_str_mul by reflexivity. reflexivity.
    + apply in_app_iff in Hin. destruct Hin as [Hin|[<-|[]]].
      * apply in_map_iff in Hin. destruct Hin as (content & <- & Hcontent).
        rewrite boxed_eq. rewrite !contains_append.
        rewrite (Hclean content Hcontent).
        rewrite contains_str_mul by reflexivity. reflexivity.
      * unfold bottom_border_of. rewrite !contains_append.
        rewrite contains_str_mul by reflexivity. reflexivity.
Qed.

(** C9: the title of a rendered report is "Job Summary: {id} ({state})";
    the body is as wide as the longest of the content lines and this
    title; the top border holds the title between dashes, the odd dash on
    the right; the bottom border and every boxed content line are as long
    as the top border, body width + 4.  When the title has no newline,
    these are the lines of the report. *)
Theorem report_framing (self : JobSummary) (report : string) :
  get_full_summary utils self = Ok report ->
  let title :=
    "Job Summary: " +:+ job_id self +:+ " (" +:+ sd_state (summary_data self)
    +:+ ")" in
  exists lines longest max_len,
    content_lines utils self = Ok lines /\
    max_list (map len lines) = Ok longest /\
    (forall line, In line lines -> len line <= longest) /\
    (exists line, In line lines /\ len line = longest) /\
    max_len = Z.max longest (len title) /\
    report = join (String nl "")
               (title_border title max_len :: map (boxed max_len) lines
                ++ [bottom_border_of max_len]) /\
    title_border title max_len =
      "+" +:+ str_mul "-" ((max_len - len title) / 2) +:+ " " +:+ title +:+ " "
      +:+ str_mul "-" ((max_len - len title) / 2 + (max_len - len title) mod 2)
      +:+ "+" /\
    bottom_border_of max_len = "+" +:+ str_mul "-" (max_len + 2) +:+ "+" /\
    len (title_border title max_len) = max_len + 4 /\
    len (bottom_border_of max_len) = max_len + 4 /\
    (forall line, In line lines ->
       boxed max_len line
         = "| " +:+ line +:+ str_mul " " (max_len - len line) +:+ " |" /\
       len (boxed max_len line) = max_len + 4) /\
    (contains nl title = false ->
     split nl report =
       title_border title max_len :: map (boxed max_len) lines
       ++ [bottom_border_of max_len]).
Proof.
  intros H title.
  assert (Htitle : title_of self = title) by reflexivity.
  pose proof (framing_of_report self report H) as Hframe.
  cbv zeta in Hframe. rewrite Htitle in Hframe. exact Hframe.
Qed.

End Framing.

Section FramingRun.

Lemma report_framing_witness :
  get_full_summary Fixtures.plain_utils Fixtures.completed_summary
    = Ok Fixtures.completed_report /\
  contains nl "Job Summary: 1001 (COMPLETED)" = false /\
  exists lines longest max_len,
    content_lines Fixtures.plain_utils Fixtures.completed_summary = Ok lines /\
    max_len = Z.max longest (len "Job Summary: 1001 (COMPLETED)") /\
    len (title_border "Job Summary: 1001 (COMPLETED)" max_len) = max_len + 4 /\
    len (bottom_border_of max_len) = max_len + 4 /\
    split nl Fixtures.completed_report =
      title_border "Job Summary: 1001 (COMPLETED)" max_len
      :: map (boxed max_len) lines ++ [bottom_border_of max_len].
Proof.
  assert (H : get_full_summary Fixtures.plain_utils Fixtures.completed_summary
              = Ok Fixtures.completed_report) by (vm_compute; reflexivity).
  assert (Hnl : contains nl "Job Summary: 1001 (COMPLETED)" = false)
    by reflexivity.
  split; [exact H|]. split; [exact Hnl|].
  destruct (report_framing Fixtures.plain_utils Fixtures.completed_summary
              Fixtures.completed_report H)
    as (lines & longest & max_len & H1 & _ & _ & _ & H5 & _ & _ & _ & H9 & H10
        & _ & H12).
  exists lines, longest, max_len.
  split; [exact H1|]. split; [exact H5|]. split; [exact H9|].
  split; [exact H10|]. exact (H12 Hnl).
Defined.

(** A short title is centred, the odd dash on the right; a long title
    sets the width. *)
Example frame_short_title :
  frame "T" ["abcd"; "ab"] = Ok ["+- T --+"; "| abcd |"; "| ab   |"; "+------+"].
Proof. vm_compute. reflexivity. Qed.

Example frame_long_title :
  frame "A long title" ["ab"]
  = Ok ["+ A long title +"; "| ab           |"; "+--------------+"].
Proof. vm_compute. reflexivity. Qed.

Example completed_report_lines :
  split nl Fixtures.completed_report =
  [ "+----------- Job Summary: 1001 (COMPLETED) ------------+";
    "| Memory (RAM)  [#####     ] (1.0G peak / 1.0G)        |";
    "| CPU           [#####     ] average                   |";
    "| Time          [#####     ] (0-00:05:00 / 0-00:05:00) |";
    "|                                                      |";
    "| Lustre Filesystem:                                   |";
    "|   No data available                                  |";
    "|                                                      |";
    "| Warnings:                                            |";
    "|   - Too much memory requested                        |";
    "+------------------------------------------------------+" ].
Proof. vm_compute. reflexivity. Qed.

End FramingRun.

(** * Further properties of the code *)

(** ** Identifiers: plain, heterogeneous and malformed *)

Section Identifiers.

Lemma split_cons_other (sep a : ascii) (s : string) :
  Ascii.eqb a sep = false ->
  length (split sep (String a s)) = length (split sep s).
Proof.
  intros H. cbn [split]. rewrite H.
  destruct (split sep s) eqn:E; [|reflexivity].
  exfalso. exact (split_nonempty sep s E).
Qed.

(** Each separator adds one part. *)
Lemma split_length_app (sep : ascii) (a b : string) :
  length (split sep (a +:+ String sep b))
  = (length (split sep a) + length (split sep b))%nat.
Proof.
  induction a as [|c a IH].
  - change (EmptyString +:+ String sep b) with (String sep b).
    cbn [split]. rewrite Ascii.eqb_refl. reflexivity.
  - change (String c a +:+ String sep b) with (String c (a +:+ String sep b)).
    destruct (Ascii.eqb c sep) eqn:E.
    + cbn [split]. rewrite E. cbn [length]. rewrite IH. reflexivity.
    + rewrite !(split_cons_other sep c) by exact E. exact IH.
Qed.

Lemma split_length_pos (sep : ascii) (s : string) :
  (1 <= length (split sep s))%nat.
Proof.
  pose proof (split_nonempty sep s) as H.
  destruct (split sep s); [congruence | cbn [length]; lia].
Qed.

(** X1: a heterogeneous identifier "H+O" whose two parts [int] reads
    resolves to the sum of the two numbers, with no database call. *)
Theorem het_job_resolution (db : SlurmDb) (h o : string) (base offset : Z) :
  contains "_" h = false -> contains "_" o = false ->
  contains "+" h = false -> contains "+" o = false ->
  int h = Ok base -> int o = Ok offset ->
  get_raw_id db (h +:+ "+" +:+ o) = Traced [] (Ok (base + offset)).
Proof.
  intros Hh Ho Hh' Ho' Hbase Hoffset. unfold get_raw_id.
  change (h +:+ "+" +:+ o) with (h +:+ String "+" o).
  assert (Hno : contains "_" (h +:+ String "+" o) = false).
  { rewrite contains_append, Hh. cbn [contains orb]. rewrite Ho. reflexivity. }
  rewrite Hno, contains_app_sep.
  rewrite (split_app_sep "+" h o Hh'), (split_no_sep "+" o Ho').
  rewrite Hbase, Hoffset. reflexivity.
Qed.

Lemma het_job_resolution_witness :
  get_raw_id Fixtures.sample_db ("100" +:+ "+" +:+ "2") = Traced [] (Ok (100 + 2)).
Proof.
  apply het_job_resolution; reflexivity.
Defined.

(** Digits beyond the limit are refused. *)
Lemma int_too_long (s : string) :
  forallb is_digit (String.list_ascii_of_string s) = true ->
  MAX_STR_DIGITS < len s -> int s = Raise ValueError.
Proof.
  intros Hall Hlen.
  assert (Hn : number s = None).
  { unfold number. rewrite (ungroup_digits s Hall). cbn [mbind option_bind].
    destruct (Z.ltb_spec MAX_STR_DIGITS (len s)); [reflexivity | lia]. }
  unfold int. rewrite (all_digits_lstrip s Hall), (all_digits_rstrip s Hall).
  cbv zeta. destruct s as [|a s']; [rewrite Hn; reflexivity|].
  pose proof (proj1 (proj1 (all_digits_cons a s') Hall)) as Ha.
  destruct a as [[] [] [] [] [] [] [] []];
    try discriminate Ha; cbv beta iota; rewrite Hn; reflexivity.
Qed.

(** X2: an identifier made of the digits 0-9, at most 4300 of them,
    resolves to its own value, a number >= 0, with no database call; in
    particular [str n] resolves to [n].  With more digits than that the
    conversion is refused and the identifier raises [ValueError]. *)
Theorem plain_job_resolution (db : SlurmDb) :
  (forall job_id, isdigit job_id = true -> len job_id <= MAX_STR_DIGITS ->
     exists n, 0 <= n /\ int job_id = Ok n /\
               get_raw_id db job_id = Traced [] (Ok n)) /\
  (forall n, 0 <= n -> len (str n) <= MAX_STR_DIGITS ->
     get_raw_id db (str n) = Traced [] (Ok n)) /\
  (forall job_id, isdigit job_id = true -> MAX_STR_DIGITS < len job_id ->
     get_raw_id db job_id = Traced [] (Raise ValueError)).
Proof.
  assert (Hall : forall job_id, isdigit job_id = true ->
            forallb is_digit (String.list_ascii_of_string job_id) = true).
  { intros job_id Hd. destruct job_id; [discriminate | exact Hd]. }
  assert (Hplain : forall job_id r,
            isdigit job_id = true -> int job_id = r ->
            get_raw_id db job_id
              = Traced [] match r with Ok n => Ok n | Raise e => Raise e end).
  { intros job_id r Hd Hint. unfold get_raw_id.
    rewrite (all_digits_avoids "_" job_id eq_refl (Hall _ Hd)).
    rewrite (all_digits_avoids "+" job_id eq_refl (Hall _ Hd)).
    rewrite Hd, Hint. destruct r; reflexivity. }
  split; [|split].
  - intros job_id Hd Hlen.
    destruct (int_digits job_id Hd Hlen) as (n & Hn & Hint).
    exists n. split; [exact Hn|]. split; [exact Hint|].
    apply (Hplain job_id (Ok n)); assumption.
  - intros n Hn Hlen.
    apply (Hplain (str n) (Ok n)); [apply isdigit_str, Hn | apply int_str; assumption].
  - intros job_id Hd Hlen.
    apply (Hplain job_id (Raise ValueError)); [exact Hd|].
    apply int_too_long; [apply Hall, Hd | exact Hlen].
Qed.

Lemma plain_job_resolution_witness :
  isdigit "007" = true /\ len "007" <= MAX_STR_DIGITS /\
  exists n, 0 <= n /\ int "007" = Ok n /\
            get_raw_id Fixtures.sample_db "007" = Traced [] (Ok n).
Proof.
  assert (H : isdigit "007" = true) by reflexivity.
  assert (Hlen : len "007" <= MAX_STR_DIGITS) by (vm_compute; discriminate).
  split; [exact H|]. split; [exact Hlen|].
  exact (proj1 (plain_job_resolution Fixtures.sample_db) "007" H Hlen).
Defined.

(** X3: the accounting database is asked for jobs only when the identifier
    holds an underscore; an identifier with no underscore, no plus sign and
    not made of digits (the empty string included) raises the "not found"
    key error. *)
Theorem raw_id_without_underscore (db : SlurmDb) (job_id : string) :
  contains "_" job_id = false ->
  trace (get_raw_id db job_id) = [] /\
  (contains "+" job_id = false -> isdigit job_id = false ->
   get_raw_id db job_id
     = Traced [] (Raise (KeyError ("Job ID " +:+ job_id +:+ " not found")))).
Proof.
  intros Hno. split.
  - unfold get_raw_id. rewrite Hno. destruct (contains "+" job_id).
    + destruct (split "+" job_id) as [|a [|t [|x rest]]]; try reflexivity.
      destruct (int a) as [za|e]; [|reflexivity].
      destruct (int t) as [zt|e]; reflexivity.
    + destruct (isdigit job_id); [|reflexivity].
      destruct (int job_id) as [z|e]; reflexivity.
  - intros Hplus Hdigit. unfold get_raw_id.
    rewrite Hno, Hplus, Hdigit. reflexivity.
Qed.

Lemma raw_id_without_underscore_witness :
  trace (get_raw_id Fixtures.sample_db "") = [] /\
  get_raw_id Fixtures.sample_db ""
    = Traced [] (Raise (KeyError ("Job ID " +:+ "" +:+ " not found"))).
Proof.
  destruct (raw_id_without_underscore Fixtures.sample_db "" eq_refl) as [H1 H2].
  split; [exact H1|]. apply H2; reflexivity.
Defined.

(** X4: an identifier with two underscores or more fails on unpacking the
    split, with [ValueError] and before any database call. *)
Theorem two_underscores_rejected (db : SlurmDb) (a b c : string) :
  get_raw_id db (a +:+ "_" +:+ b +:+ "_" +:+ c) = Traced [] (Raise ValueError).
Proof.
  unfold get_raw_id.
  change (a +:+ "_" +:+ b +:+ "_" +:+ c)
    with (a +:+ String "_" (b +:+ String "_" c)).
  rewrite contains_app_sep.
  pose proof (split_length_app "_" a (b +:+ String "_" c)) as Hlen.
  rewrite (split_length_app "_" b c) in Hlen.
  pose proof (split_length_pos "_" a). pose proof (split_length_pos "_" b).
  pose proof (split_length_pos "_" c).
  destruct (split "_" (a +:+ String "_" (b +:+ String "_" c)))
    as [|x [|y [|z rest]]]; cbn [length] in Hlen; try lia; reflexivity.
Qed.

(** X5: in the array branch the task id is read inside the loop: a task id
    that [int] rejects raises [ValueError] when the array has jobs and the
    "not found" key error when it has none; a failure of the database
    query is raised as it is. *)
Theorem array_lookup_errors (db : SlurmDb) (array_id task_id : string) :
  contains "_" array_id = false -> contains "_" task_id = false ->
  let job_id := array_id +:+ "_" +:+ task_id in
  (forall jobs, int task_id = Raise ValueError ->
     Jobs_load db [array_id] = Ok jobs ->
     get_raw_id db job_id =
       Traced [DbJobsLoad [array_id]]
         match jobs with
         | [] => Raise (KeyError ("Job ID " +:+ job_id +:+ " not found"))
         | _ :: _ => Raise ValueError
         end) /\
  (forall e, Jobs_load db [array_id] = Raise e ->
     get_raw_id db job_id = Traced [DbJobsLoad [array_id]] (Raise e)).
Proof.
  intros Ha Ht job_id. unfold job_id, get_raw_id.
  change (array_id +:+ "_" +:+ task_id) with (array_id +:+ String "_" task_id).
  rewrite contains_app_sep, (split_app_sep "_" _ _ Ha), (split_no_sep "_" _ Ht).
  split.
  - intros jobs Hint Hjobs.
    unfold mbind, traced_bind, tbind, calling, pure. cbn [outcome trace].
    rewrite Hjobs. destruct jobs as [|job rest].
    + reflexivity.
    + cbn [scan_tasks]. rewrite Hint. reflexivity.
  - intros e He.
    unfold mbind, traced_bind, tbind, calling, pure. cbn [outcome trace].
    rewrite He. reflexivity.
Qed.

Lemma array_lookup_errors_witness :
  contains "_" "500" = false /\ contains "_" "x" = false /\
  int "x" = Raise ValueError /\
  Jobs_load Fixtures.sample_db ["500"] = Ok Fixtures.array_500 /\
  get_raw_id Fixtures.sample_db ("500" +:+ "_" +:+ "x")
    = Traced [DbJobsLoad ["500"]]
        match Fixtures.array_500 with
        | [] => Raise (KeyError ("Job ID " +:+ ("500" +:+ "_" +:+ "x")
                                 +:+ " not found"))
        | _ :: _ => Raise ValueError
        end.
Proof.
  assert (Ha : contains "_" "500" = false) by reflexivity.
  assert (Ht : contains "_" "x" = false) by reflexivity.
  assert (Hint : int "x" = Raise ValueError) by reflexivity.
  assert (Hjobs : Jobs_load Fixtures.sample_db ["500"] = Ok Fixtures.array_500)
    by reflexivity.
  split; [exact Ha|]. split; [exact Ht|]. split; [exact Hint|].
  split; [exact Hjobs|].
  exact (proj1 (array_lookup_errors Fixtures.sample_db "500" "x" Ha Ht)
           Fixtures.array_500 Hint Hjobs).
Defined.

(** [int] on white space, signs and digit grouping: the separator
    characters 28 to 31 are not skipped, one underscore between digits is. *)
Example int_spellings :
  int " 42 " = Ok 42 /\ int "-7" = Ok (-7) /\ int "+7" = Ok 7 /\
  int "1_6" = Ok 16 /\ int "0_0" = Ok 0 /\
  int (String (ascii_of_nat 28) "100") = Raise ValueError /\
  int "1__6" = Raise ValueError /\ int "_1" = Raise ValueError /\
  int "1_" = Raise ValueError /\ int "+ 7" = Raise ValueError /\
  int "" = Raise ValueError.
Proof. repeat split; vm_compute; reflexivity. Qed.

(** A task id led by the separator character 28 is refused in the loop. *)
Example array_task_control_character :
  outcome (get_raw_id Fixtures.sample_db
             ("500_" +:+ String (ascii_of_nat 28) "2"))
  = Raise ValueError.
Proof. vm_compute. reflexivity. Qed.

End Identifiers.

(** ** Facts about a constructed summary *)

Section ConstructorFacts.

Local Open Scope Q_scope.

Lemma init_warnings (db : SlurmDb) (job_id : string) (iq : option InfluxQuery)
    (s : JobSummary) :
  outcome (init db job_id iq) = Ok s -> get_warnings s = Ok (warnings s).
Proof.
  intros H. apply init_ok in H.
  destruct H as (raw & record & req_mem & max_mem & avg_cpu & lustre & ws & H).
  cbv zeta in H. destruct H as (_ & _ & _ & _ & _ & _ & Hws & -> & _).
  exact Hws.
Qed.

Lemma init_times (db : SlurmDb) (job_id : string) (iq : option InfluxQuery)
    (s : JobSummary) :
  outcome (init db job_id iq) = Ok s ->
  sd_elapsed_time (summary_data s)
    = Some match elapsed_time (db_data s) with Some t => t | None => 0 end /\
  sd_time_limit (summary_data s) = Some (time_limit (db_data s) * 60).
Proof.
  intros H. apply init_ok in H.
  destruct H as (raw & record & req_mem & max_mem & avg_cpu & lustre & ws & H).
  cbv zeta in H. destruct H as (_ & _ & _ & _ & _ & _ & _ & -> & _).
  split; reflexivity.
Qed.

Lemma init_calls_without_gateway (db : SlurmDb) (job_id : string)
    (s : JobSummary) :
  outcome (init db job_id None) = Ok s ->
  finished s = false ->
  trace (init db job_id None)
    = trace (get_raw_id db job_id) ++ [DbJobLoad (raw_id s)].
Proof.
  intros H Hfin. apply init_ok in H.
  destruct H as (raw & record & req_mem & max_mem & avg_cpu & lustre & ws & H).
  cbv zeta in H. destruct H as (_ & _ & _ & _ & _ & _ & _ & -> & ->).
  cbn [set_warnings set_summary_data raw_id finished new_object] in *.
  rewrite get_max_mem_bytes_cases, get_user_cpu_percentage_cases. cbv zeta.
  cbn [new_object finished influxquery]. rewrite Hfin.
  unfold get_lustre_stats. cbn [new_object influxquery].
  cbn [trace mret traced_ret]. rewrite !app_nil_r. reflexivity.
Qed.

Lemma warnings_built (self : JobSummary) (ws : list string) (m r : Q) :
  get_warnings self = Ok ws ->
  sd_max_mem (summary_data self) = Some m ->
  sd_req_mem (summary_data self) = Some r ->
  ~ r == 0.
Proof.
  intros H Hm Hr. rewrite get_warnings_eq in H. cbv zeta in H.
  rewrite Hm, Hr in H.
  destruct (Qeq_bool r 0) eqn:E; [discriminate|]. apply Qeq_bool_false, E.
Qed.

Lemma init_mem_line (utils : Helpers) (db : SlurmDb) (job_id : string)
    (iq : option InfluxQuery) (s : JobSummary) :
  outcome (init db job_id iq) = Ok s ->
  exists line, get_mem_summary utils s = Ok line.
Proof.
  intros H. pose proof (init_warnings _ _ _ _ H) as Hws.
  rewrite get_mem_summary_eq.
  destruct (sd_max_mem (summary_data s)) as [m|] eqn:Hm; [|eexists; reflexivity].
  destruct (sd_req_mem (summary_data s)) as [r|] eqn:Hr; [|eexists; reflexivity].
  pose proof (warnings_built s _ m r Hws Hm Hr) as Hnz.
  apply Qeq_bool_false in Hnz. rewrite Hnz. eexists. reflexivity.
Qed.

End ConstructorFacts.

(** ** The constructor: failures, invariants and calls *)

Section Constructor.

Local Open Scope Q_scope.

Lemma outcome_tbind {A B} (t : traced A) (k : A -> traced B) :
  outcome (t ≫= k) = outcome t ≫= (fun a => outcome (k a)).
Proof.
  unfold mbind at 1, traced_bind, tbind.
  destruct (outcome t); reflexivity.
Qed.

(** The outcome of [__init__] once the record is loaded. *)
Lemma init_run (db : SlurmDb) (job_id : string) (iq : option InfluxQuery)
    (raw : Z) (record : Job) :
  outcome (get_raw_id db job_id) = Ok raw ->
  Job_load db raw = Ok record ->
  let self := new_object job_id raw record iq in
  outcome (init db job_id iq) =
    (req_mem ← get_req_mem_bytes self;
     max_mem ← outcome (get_max_mem_bytes self);
     avg_cpu ← outcome (get_user_cpu_percentage self);
     lustre ← outcome (get_lustre_stats self);
     ws ← get_warnings
            (set_summary_data self (collect self req_mem max_mem avg_cpu lustre));
     Ok (set_warnings
           (set_summary_data self (collect self req_mem max_mem avg_cpu lustre))
           ws)).
Proof.
  intros Hraw Hload self. unfold init.
  rewrite outcome_tbind, Hraw, mbind_ok.
  rewrite outcome_tbind. cbn [calling outcome]. rewrite Hload, mbind_ok.
  fold self. rewrite outcome_tbind. cbn [pure outcome].
  destruct (get_req_mem_bytes self) as [req_mem|e]; [|reflexivity].
  rewrite !mbind_ok. rewrite outcome_tbind.
  destruct (outcome (get_max_mem_bytes self)) as [max_mem|e]; [|reflexivity].
  rewrite !mbind_ok. rewrite outcome_tbind.
  destruct (outcome (get_user_cpu_percentage self)) as [avg_cpu|e]; [|reflexivity].
  rewrite !mbind_ok. rewrite outcome_tbind.
  destruct (outcome (get_lustre_stats self)) as [lustre|e]; [|reflexivity].
  rewrite !mbind_ok. rewrite outcome_tbind. cbn [pure outcome].
  destruct (get_warnings _) as [ws|e]; reflexivity.
Qed.

(** X6: a failed identifier resolution ends [__init__] with the same
    error and no further call; a failed [Job.load] ends it with that error
    right after the load, before any gateway call. *)
Theorem init_failure_stops (db : SlurmDb) (job_id : string)
    (iq : option InfluxQuery) (e : exn) :
  (outcome (get_raw_id db job_id) = Raise e ->
   init db job_id iq = Traced (trace (get_raw_id db job_id)) (Raise e)) /\
  (forall raw, outcome (get_raw_id db job_id) = Ok raw ->
     Job_load db raw = Raise e ->
     init db job_id iq
       = Traced (trace (get_raw_id db job_id) ++ [DbJobLoad raw]) (Raise e)).
Proof.
  split.
  - intros H. unfold init. apply tbind_raise, H.
  - intros raw Hraw Hload. unfold init.
    rewrite (tbind_run _ _ raw Hraw).
    rewrite (tbind_raise (calling (DbJobLoad raw) (Job_load db raw)) _ e)
      by exact Hload.
    reflexivity.
Qed.

Lemma init_failure_stops_witness :
  outcome (get_raw_id Fixtures.sample_db "9999") = Ok 9999%Z /\
  Job_load Fixtures.sample_db 9999 = Raise (ExternalError "no such job") /\
  init Fixtures.sample_db "9999" (Some Fixtures.stub_gateway)
    = Traced (trace (get_raw_id Fixtures.sample_db "9999") ++ [DbJobLoad 9999])
             (Raise (ExternalError "no such job")).
Proof.
  assert (H1 : outcome (get_raw_id Fixtures.sample_db "9999") = Ok 9999%Z)
    by reflexivity.
  assert (H2 : Job_load Fixtures.sample_db 9999
               = Raise (ExternalError "no such job")) by reflexivity.
  split; [exact H1|]. split; [exact H2|].
  exact (proj2 (init_failure_stops Fixtures.sample_db "9999"
                  (Some Fixtures.stub_gateway) (ExternalError "no such job"))
           9999%Z H1 H2).
Defined.

(** X7: a constructed summary is consistent with what it was built from:
    it keeps the identifier, the gateway and the record that [Job.load]
    returned for its raw id; [finished] is the state test; the requested
    memory is never null; the elapsed time is 0 when the record has none;
    the time limit is the record's minutes times 60; and the warnings,
    stored twice, are those of its own fields. *)
Theorem constructed_summary_consistent (db : SlurmDb) (job_id : string)
    (iq : option InfluxQuery) (s : JobSummary) :
  outcome (init db job_id iq) = Ok s ->
  Summary.job_id s = job_id /\ influxquery s = iq /\
  heading_width s = 14%Z /\
  outcome (get_raw_id db job_id) = Ok (raw_id s) /\
  Job_load db (raw_id s) = Ok (db_data s) /\
  finished s = not_in (state (db_data s)) UNFINISHED_STATES /\
  sd_state (summary_data s) = state (db_data s) /\
  (exists r, get_req_mem_bytes s = Ok r /\
             sd_req_mem (summary_data s) = Some r) /\
  sd_elapsed_time (summary_data s)
    = Some match elapsed_time (db_data s) with Some t => t | None => 0 end /\
  sd_time_limit (summary_data s) = Some (time_limit (db_data s) * 60) /\
  get_warnings s = Ok (warnings s) /\
  sd_warnings (summary_data s) = Some (warnings s).
Proof.
  intros H. apply init_ok in H.
  destruct H as (raw & record & req_mem & max_mem & avg_cpu & lustre & ws & H).
  cbv zeta in H.
  destruct H as (Hraw & Hload & Hreq & _ & _ & _ & Hws & -> & _).
  repeat split; try assumption; try reflexivity.
  exists req_mem. split; [exact Hreq | reflexivity].
Qed.

Lemma constructed_summary_consistent_witness :
  outcome (init Fixtures.sample_db "3003" (Some Fixtures.stub_gateway))
    = Ok Fixtures.running_summary /\
  Job_load Fixtures.sample_db (raw_id Fixtures.running_summary)
    = Ok (db_data Fixtures.running_summary) /\
  get_warnings Fixtures.running_summary = Ok (warnings Fixtures.running_summary).
Proof.
  assert (H : outcome (init Fixtures.sample_db "3003" (Some Fixtures.stub_gateway))
              = Ok Fixtures.running_summary) by (vm_compute; reflexivity).
  split; [exact H|].
  destruct (constructed_summary_consistent _ _ _ _ H)
    as (_ & _ & _ & _ & H5 & _ & _ & _ & _ & _ & H11 & _).
  split; assumption.
Defined.

(** X8: the calls of a successful [__init__], in order: those of the
    identifier resolution, one [Job.load] of the raw id, then the gateway
    calls.  Without a gateway there is none; with one, the filesystem
    query is always made, after the two metric queries, which are made
    for an unfinished job only. *)
Theorem init_call_order (db : SlurmDb) (job_id : string)
    (iq : option InfluxQuery) (s : JobSummary) :
  outcome (init db job_id iq) = Ok s ->
  trace (init db job_id iq) =
    trace (get_raw_id db job_id) ++ [DbJobLoad (raw_id s)]
    ++ match iq with
       | None => []
       | Some _ =>
           (if finished s then []
            else [InfluxMaxMem (influxid s); InfluxAvgCpu (influxid s)])
           ++ [InfluxLustre (influxid s)]
       end.
Proof.
  intros H. apply init_ok in H.
  destruct H as (raw & record & req_mem & max_mem & avg_cpu & lustre & ws & H).
  cbv zeta in H.
  destruct H as (_ & _ & _ & _ & _ & Hlus & _ & -> & ->).
  set (self := new_object job_id raw record iq) in *.
  cbn [set_warnings set_summary_data raw_id finished influxid].
  rewrite get_max_mem_bytes_cases.
  rewrite get_user_cpu_percentage_cases. cbv zeta.
  f_equal. f_equal.
  assert (Hl : trace (get_lustre_stats self)
               = match iq with None => [] | Some _ => [InfluxLustre (influxid self)] end).
  { unfold get_lustre_stats in *. change (influxquery self) with iq in *.
    destruct iq as [g|]; [|reflexivity].
    unfold mbind, traced_bind, tbind, calling, pure in *.
    cbn [outcome trace] in *.
    destruct (get_lustre_jobstats g (influxid self)) as [data|e];
      cbn [outcome trace] in *; [|discriminate].
    destruct (map_fold _ _ data); cbn [outcome trace] in *; [|discriminate].
    reflexivity. }
  rewrite Hl. change (influxquery self) with iq.
  destruct (finished self); destruct iq; reflexivity.
Qed.

Lemma init_call_order_witness :
  outcome (init Fixtures.sample_db "3003" (Some Fixtures.stub_gateway))
    = Ok Fixtures.running_summary /\
  trace (init Fixtures.sample_db "3003" (Some Fixtures.stub_gateway))
    = [DbJobLoad 3003; InfluxMaxMem "3003"; InfluxAvgCpu "3003";
       InfluxLustre "3003"].
Proof.
  assert (H : outcome (init Fixtures.sample_db "3003" (Some Fixtures.stub_gateway))
              = Ok Fixtures.running_summary) by (vm_compute; reflexivity).
  split; [exact H|].
  rewrite (init_call_order _ _ _ _ H). reflexivity.
Defined.

(** X9: the metrics id is spelled from the record, "array_task", when the
    record has a nonzero array id and a nonzero task id, whatever
    identifier was given; for a record with no array id or task id, or with
    either equal to 0, it is the identifier as given. *)
Theorem metrics_id_rule (db : SlurmDb) (job_id : string)
    (iq : option InfluxQuery) (s : JobSummary) :
  outcome (init db job_id iq) = Ok s ->
  (forall a t, array_id (db_data s) = Some a ->
               array_task_id (db_data s) = Some t ->
               a <> 0%Z -> t <> 0%Z ->
               influxid s = str a +:+ "_" +:+ str t) /\
  (array_id (db_data s) = None \/ array_id (db_data s) = Some 0%Z \/
   array_task_id (db_data s) = None \/ array_task_id (db_data s) = Some 0%Z ->
   influxid s = job_id).
Proof.
  intros H. apply init_ok in H.
  destruct H as (raw & record & req_mem & max_mem & avg_cpu & lustre & ws & H).
  cbv zeta in H. destruct H as (_ & _ & _ & _ & _ & _ & _ & -> & _).
  cbn [set_warnings set_summary_data new_object db_data influxid].
  unfold metrics_id. split.
  - intros a t -> -> Ha Ht. cbn [truthy format].
    destruct (Z.eqb_spec a 0); [contradiction|].
    destruct (Z.eqb_spec t 0); [contradiction|]. reflexivity.
  - intros [-> | [-> | [-> | ->]]]; cbn [truthy andb negb Z.eqb];
      try reflexivity; rewrite andb_false_r; reflexivity.
Qed.

Lemma metrics_id_rule_witness :
  outcome (init Fixtures.sample_db "502" None) = Ok MoreFixtures.task_summary /\
  array_id (db_data MoreFixtures.task_summary) = Some 500%Z /\
  array_task_id (db_data MoreFixtures.task_summary) = Some 2%Z /\
  influxid MoreFixtures.task_summary = str 500 +:+ "_" +:+ str 2.
Proof.
  assert (H : outcome (init Fixtures.sample_db "502" None)
              = Ok MoreFixtures.task_summary) by (vm_compute; reflexivity).
  split; [exact H|]. split; [reflexivity|]. split; [reflexivity|].
  apply (proj1 (metrics_id_rule _ _ _ _ H) 500%Z 2%Z);
    [reflexivity | reflexivity | lia | lia].
Defined.

End Constructor.

(** ** The constructor and the quotient peak/requested *)

Section ConstructorFaults.

Local Open Scope Q_scope.

Variable utils : Helpers.

Lemma get_cpu_summary_total (self : JobSummary) :
  exists line, get_cpu_summary utils self = Ok line.
Proof.
  unfold get_cpu_summary.
  destruct (sd_avg_cpu (summary_data self)) as [cpu|]; eexists; reflexivity.
Qed.

Lemma get_lustre_stats_none (self : JobSummary) :
  influxquery self = None -> get_lustre_stats self = Traced [] (Ok None).
Proof. intros H. unfold get_lustre_stats. rewrite H. reflexivity. Qed.

(** The average CPU of a constructed summary of a finished job. *)
Lemma source_decision_fields (db : SlurmDb) (job_id : string)
    (iq : option InfluxQuery) (s : JobSummary) :
  outcome (init db job_id iq) = Ok s ->
  ~ In (state (db_data s)) UNFINISHED_STATES ->
  exists cpu,
    sd_avg_cpu (summary_data s) = Some cpu /\
    cpu = (if Qeq_bool (elapsed_cpu_time (stats (db_data s))) 0 then 0
           else foldl (fun acc step => acc + user_cpu_time (step_stats step)) 0
                      (steps (db_data s))
                / elapsed_cpu_time (stats (db_data s)) * 100).
Proof.
  intros H Hfin. apply init_ok in H.
  destruct H as (raw & record & req_mem & max_mem & avg_cpu & lustre & ws & H).
  cbv zeta in H. destruct H as (_ & _ & _ & _ & Hcpu & _ & _ & -> & _).
  cbn [set_warnings set_summary_data collect db_data summary_data sd_avg_cpu] in *.
  cbn [new_object db_data] in Hfin.
  rewrite get_user_cpu_percentage_cases in Hcpu. cbv zeta in Hcpu.
  cbn [new_object finished db_data] in Hcpu.
  apply not_in_true in Hfin. rewrite Hfin in Hcpu. cbn [outcome] in Hcpu.
  injection Hcpu as <-. eexists. split; reflexivity.
Qed.

(** X10: on a constructed summary the memory line and the CPU line are
    always rendered: a zero requested memory beside a known peak has
    already stopped the constructor. *)
Theorem constructed_lines_render (db : SlurmDb) (job_id : string)
    (iq : option InfluxQuery) (s : JobSummary) :
  outcome (init db job_id iq) = Ok s ->
  (exists line, get_mem_summary utils s = Ok line) /\
  (exists line, get_cpu_summary utils s = Ok line).
Proof.
  intros H. split.
  - apply (init_mem_line utils db job_id iq s H).
  - apply get_cpu_summary_total.
Qed.

(** X11: a job in a finished state with no node allocated, or with no
    memory requested, cannot be summarised: its peak memory is known and
    its requested memory per node is 0, so [__init__] never returns an
    object, and without a gateway it raises [ZeroDivisionError]. *)
Theorem unallocated_finished_job (db : SlurmDb) (job_id : string) (raw : Z)
    (record : Job) :
  outcome (get_raw_id db job_id) = Ok raw ->
  Job_load db raw = Ok record ->
  ~ In (state record) UNFINISHED_STATES ->
  num_nodes record = 0%Z \/ memory record == 0 ->
  (forall iq s, outcome (init db job_id iq) <> Ok s) /\
  outcome (init db job_id None) = Raise ZeroDivisionError.
Proof.
  intros Hraw Hload Hfin Hzero.
  assert (Hreq : forall iq, exists r,
            get_req_mem_bytes (new_object job_id raw record iq) = Ok r /\ r == 0).
  { intros iq. rewrite get_req_mem_bytes_eq.
    cbn [new_object db_data]. eexists. split; [reflexivity|].
    destruct (Z.eqb_spec (num_nodes record) 0) as [E|E]; [reflexivity|].
    destruct Hzero as [Hn|Hm]; [contradiction|].
    rewrite Hm. unfold Qdiv. ring. }
  apply not_in_true in Hfin.
  assert (Hstage : forall iq,
            outcome (init db job_id iq) = Raise ZeroDivisionError
            \/ exists e, outcome (get_lustre_stats (new_object job_id raw record iq))
                          = Raise e /\ outcome (init db job_id iq) = Raise e).
  { intros iq. rewrite (init_run db job_id iq raw record Hraw Hload). cbv zeta.
    destruct (Hreq iq) as (r & -> & Hr). rewrite mbind_ok.
    rewrite get_max_mem_bytes_cases, get_user_cpu_percentage_cases. cbv zeta.
    cbn [new_object finished]. rewrite Hfin. cbn [outcome]. rewrite !mbind_ok.
    destruct (outcome (get_lustre_stats _)) as [lustre|e] eqn:El.
    - left. rewrite mbind_ok, get_warnings_eq. cbv zeta.
      cbn [set_summary_data collect summary_data sd_max_mem sd_req_mem].
      rewrite (Qeq_eq_bool _ _ Hr). reflexivity.
    - right. exists e. split; reflexivity. }
  split.
  - intros iq s Hs. destruct (Hstage iq) as [H | (e & _ & H)]; congruence.
  - destruct (Hstage None) as [H | (e & He & _)]; [exact H|].
    discriminate He.
Qed.

Lemma unallocated_finished_job_witness :
  outcome (get_raw_id MoreFixtures.wider_db "4004") = Ok 4004%Z /\
  Job_load MoreFixtures.wider_db 4004 = Ok MoreFixtures.cancelled_job /\
  outcome (init MoreFixtures.wider_db "4004" None) = Raise ZeroDivisionError.
Proof.
  assert (H1 : outcome (get_raw_id MoreFixtures.wider_db "4004") = Ok 4004%Z)
    by reflexivity.
  assert (H2 : Job_load MoreFixtures.wider_db 4004 = Ok MoreFixtures.cancelled_job)
    by reflexivity.
  split; [exact H1|]. split; [exact H2|].
  apply (unallocated_finished_job MoreFixtures.wider_db "4004" 4004%Z
           MoreFixtures.cancelled_job H1 H2).
  - simpl. intuition discriminate.
  - left. reflexivity.
Defined.

(** X12: without a gateway an unfinished job is summarised whenever its
    record is found: peak memory, average CPU and filesystem statistics are
    null, there is no warning, only the two database calls are made, and
    the three parts render as "No data available". *)
Theorem unfinished_without_gateway (db : SlurmDb) (job_id : string) (raw : Z)
    (record : Job) :
  outcome (get_raw_id db job_id) = Ok raw ->
  Job_load db raw = Ok record ->
  In (state record) UNFINISHED_STATES ->
  exists s,
    init db job_id None
      = Traced (trace (get_raw_id db job_id) ++ [DbJobLoad raw]) (Ok s) /\
    sd_max_mem (summary_data s) = None /\
    sd_avg_cpu (summary_data s) = None /\
    sd_lustre_stats (summary_data s) = None /\
    warnings s = [] /\
    get_mem_summary utils s = Ok "Memory (RAM)  No data available" /\
    get_cpu_summary utils s = Ok "CPU           No data available" /\
    get_lustre_summary utils s
      = Ok ("Lustre Filesystem:" +:+ String nl "  No data available"
            +:+ String nl "").
Proof.
  intros Hraw Hload Hun. apply not_in_false in Hun.
  pose proof (init_run db job_id None raw record Hraw Hload) as Hrun.
  cbv zeta in Hrun. rewrite get_req_mem_bytes_eq, mbind_ok in Hrun.
  rewrite get_max_mem_bytes_cases, get_user_cpu_percentage_cases in Hrun.
  cbv zeta in Hrun. cbn [new_object finished influxquery] in Hrun.
  rewrite Hun in Hrun. cbn [outcome] in Hrun. rewrite !mbind_ok in Hrun.
  rewrite (get_lustre_stats_none (new_object job_id raw record None) eq_refl)
    in Hrun.
  cbn [outcome] in Hrun. rewrite mbind_ok in Hrun.
  change (get_warnings _) with (@Ok (list string) []) in Hrun.
  rewrite mbind_ok in Hrun.
  match type of Hrun with _ = Ok ?s => exists s end.
  split.
  - pose proof (init_calls_without_gateway db job_id _ Hrun) as Htrace.
    destruct (init db job_id None) as [calls out]. cbn [trace outcome] in *.
    rewrite Htrace, Hrun; [reflexivity|].
    cbn [set_warnings set_summary_data new_object finished]. exact Hun.
  - repeat split; reflexivity.
Qed.

(** X13: a finished job whose aggregate CPU time is zero, or for which no
    step is recorded, has an average CPU of 0 and so always carries the
    warning "CPU usage is low". *)
Theorem idle_finished_job_warned (db : SlurmDb) (job_id : string)
    (iq : option InfluxQuery) (s : JobSummary) :
  outcome (init db job_id iq) = Ok s ->
  ~ In (state (db_data s)) UNFINISHED_STATES ->
  elapsed_cpu_time (stats (db_data s)) == 0 \/ steps (db_data s) = [] ->
  (exists cpu, sd_avg_cpu (summary_data s) = Some cpu /\ cpu == 0) /\
  In cpu_warning (warnings s).
Proof.
  intros H Hfin Hidle.
  destruct (source_decision_fields db job_id iq s H Hfin) as [cpu [Hcpu Hval]].
  assert (Hz : cpu == 0).
  { rewrite Hval.
    destruct (Qeq_bool (elapsed_cpu_time (stats (db_data s))) 0) eqn:E;
      [reflexivity|].
    destruct Hidle as [He|Hs].
    - apply Qeq_eq_bool in He. congruence.
    - rewrite Hs. cbn [foldl]. unfold Qdiv. ring. }
  split; [exists cpu; auto|].
  pose proof (init_warnings _ _ _ _ H) as Hws.
  apply (cpu_warning_iff s _ Hws). exists cpu. split; [exact Hcpu|].
  rewrite Hz. reflexivity.
Qed.

Lemma idle_finished_job_warned_witness :
  outcome (init MoreFixtures.wider_db "5005" None)
    = Ok MoreFixtures.stepless_summary /\
  In cpu_warning (warnings MoreFixtures.stepless_summary).
Proof.
  assert (H : outcome (init MoreFixtures.wider_db "5005" None)
              = Ok MoreFixtures.stepless_summary) by (vm_compute; reflexivity).
  split; [exact H|].
  apply (idle_finished_job_warned _ _ _ _ H).
  - simpl. intuition discriminate.
  - right. reflexivity.
Defined.

End ConstructorFaults.

Section ConstructorFaultsRun.

Local Open Scope Q_scope.

Lemma constructed_lines_render_witness :
  outcome (init Fixtures.sample_db "1001" None) = Ok Fixtures.completed_summary /\
  (exists line,
     get_mem_summary Fixtures.plain_utils Fixtures.completed_summary = Ok line) /\
  (exists line,
     get_cpu_summary Fixtures.plain_utils Fixtures.completed_summary = Ok line).
Proof.
  assert (H : outcome (init Fixtures.sample_db "1001" None)
              = Ok Fixtures.completed_summary) by (vm_compute; reflexivity).
  split; [exact H|].
  exact (constructed_lines_render Fixtures.plain_utils _ _ _ _ H).
Defined.

Lemma unfinished_without_gateway_witness :
  outcome (get_raw_id Fixtures.sample_db "2002") = Ok 2002%Z /\
  Job_load Fixtures.sample_db 2002 = Ok Fixtures.pending_job /\
  In (state Fixtures.pending_job) UNFINISHED_STATES /\
  exists s,
    init Fixtures.sample_db "2002" None
      = Traced (trace (get_raw_id Fixtures.sample_db "2002") ++ [DbJobLoad 2002])
               (Ok s) /\
    warnings s = [].
Proof.
  assert (H1 : outcome (get_raw_id Fixtures.sample_db "2002") = Ok 2002%Z)
    by reflexivity.
  assert (H2 : Job_load Fixtures.sample_db 2002 = Ok Fixtures.pending_job)
    by reflexivity.
  assert (H3 : In (state Fixtures.pending_job) UNFINISHED_STATES)
    by (simpl; auto).
  split; [exact H1|]. split; [exact H2|]. split; [exact H3|].
  destruct (unfinished_without_gateway Fixtures.plain_utils Fixtures.sample_db
              "2002" 2002%Z Fixtures.pending_job H1 H2 H3)
    as (s & Hs & _ & _ & _ & Hw & _).
  exists s. split; assumption.
Defined.

End ConstructorFaultsRun.

(** ** When the report can be rendered *)

Section RenderFaults.

Local Open Scope Q_scope.

Variable utils : Helpers.

Lemma mapM_ok {A B} (f : A -> result B) (l : list A) :
  (forall x, In x l -> exists y, f x = Ok y) -> exists ys, mapM f l = Ok ys.
Proof.
  induction l as [|x l IH]; intros H; [exists []; reflexivity|].
  destruct (H x (or_introl eq_refl)) as [y Hy].
  destruct IH as [ys Hys]; [intros z Hz; apply H; right; exact Hz|].
  exists (y :: ys). cbn [mapM]. rewrite Hy, mbind_ok, Hys. reflexivity.
Qed.

Lemma mapM_raise {A B} (f : A -> result B) (l : list A) (e : exn) :
  mapM f l = Raise e -> exists x, In x l /\ f x = Raise e.
Proof.
  induction l as [|x l IH]; [discriminate|]. cbn [mapM].
  destruct (f x) as [y|e'] eqn:Hx.
  - rewrite mbind_ok. destruct (mapM f l) as [ys|e'']; [discriminate|].
    intros [= <-]. destruct (IH eq_refl) as [z [Hz Hfz]].
    exists z. split; [right; exact Hz | exact Hfz].
  - intros [= <-]. exists x. split; [left; reflexivity | exact Hx].
Qed.

Lemma mapM_some_raise {A B} (f : A -> result B) (l : list A) (x : A) (e : exn) :
  In x l -> f x = Raise e -> exists e', mapM f l = Raise e'.
Proof.
  induction l as [|z l IH]; [intros []|]. intros Hin Hx. cbn [mapM].
  destruct (f z) as [y|e'] eqn:Hz; [|exists e'; reflexivity].
  rewrite mbind_ok. destruct Hin as [->|Hin]; [congruence|].
  destruct (IH Hin Hx) as [e' ->]. exists e'. reflexivity.
Qed.

(** The row of a filesystem in the table. *)
Lemma row_of_known (row : string * LustreTotals) :
  (path ← getitem fs_names (fst row);
   Ok [ path; humansize utils (total_read (snd row)) true;
        humansize utils (total_write (snd row)) true;
        humansize utils (total_iops (snd row)) false ])
  = match fs_names !! fst row with
    | Some path =>
        Ok [ path; humansize utils (total_read (snd row)) true;
             humansize utils (total_write (snd row)) true;
             humansize utils (total_iops (snd row)) false ]
    | None => Raise (KeyError (fst row))
    end.
Proof. unfold getitem. destruct (fs_names !! fst row); reflexivity. Qed.

Lemma in_map_to_list (data : gmap string LustreTotals) (row : string * LustreTotals) :
  In row (map_to_list data) <-> data !! fst row = Some (snd row).
Proof.
  rewrite <- list_elem_of_In. destruct row as [fs totals].
  apply elem_of_map_to_list.
Qed.

(** The two cases of the filesystem section. *)
Lemma lustre_section_fault (self : JobSummary)
    (data : gmap string LustreTotals) :
  sd_lustre_stats (summary_data self) = Some data ->
  ((forall fs, is_Some (data !! fs) -> is_Some (fs_names !! fs)) ->
   exists text, get_lustre_summary utils self = Ok text) /\
  ((exists fs, is_Some (data !! fs) /\ fs_names !! fs = None) ->
   exists fs, is_Some (data !! fs) /\ fs_names !! fs = None /\
              get_lustre_summary utils self = Raise (KeyError fs)).
Proof.
  intros Hdata. unfold get_lustre_summary. rewrite Hdata. split.
  - intros Hknown.
    destruct (mapM_ok
      (fun row : string * LustreTotals =>
         path ← getitem fs_names (fst row);
         Ok [ path; humansize utils (total_read (snd row)) true;
              humansize utils (total_write (snd row)) true;
              humansize utils (total_iops (snd row)) false ])
      (map_to_list data)) as [rows Hrows].
    { intros row Hrow. apply in_map_to_list in Hrow.
      rewrite row_of_known.
      destruct (Hknown (fst row)) as [path ->]; [eauto|].
      eexists. reflexivity. }
    rewrite Hrows. eexists. reflexivity.
  - intros (fs & [totals Hfs] & Hnone).
    destruct (mapM_some_raise
      (fun row : string * LustreTotals =>
         path ← getitem fs_names (fst row);
         Ok [ path; humansize utils (total_read (snd row)) true;
              humansize utils (total_write (snd row)) true;
              humansize utils (total_iops (snd row)) false ])
      (map_to_list data) (fs, totals) (KeyError fs)) as [e He].
    { apply in_map_to_list. exact Hfs. }
    { rewrite row_of_known. cbn [fst]. rewrite Hnone. reflexivity. }
    pose proof (mapM_raise _ _ _ He) as (row & Hrow & Hraise).
    apply in_map_to_list in Hrow. rewrite row_of_known in Hraise.
    destruct (fs_names !! fst row) eqn:Hname; [discriminate|].
    injection Hraise as <-.
    exists (fst row). split; [eauto|]. split; [exact Hname|].
    rewrite He. reflexivity.
Qed.

(** The table of names has four entries. *)
Lemma fs_names_known (fs : string) :
  is_Some (fs_names !! fs) <->
  (fs = "dagg" \/ fs = "home" \/ fs = "apps" \/ fs = "images")%string.
Proof.
  unfold fs_names. split.
  - intros [path H].
    destruct (decide (fs = "dagg"%string)) as [->|H1]; [auto|].
    destruct (decide (fs = "home"%string)) as [->|H2]; [auto|].
    destruct (decide (fs = "apps"%string)) as [->|H3]; [auto|].
    destruct (decide (fs = "images"%string)) as [->|H4]; [auto|].
    rewrite !lookup_insert_ne in H by congruence.
    rewrite lookup_singleton_ne in H by congruence. discriminate.
  - intros [-> | [-> | [-> | ->]]]; vm_compute; eauto.
Qed.

(** X14: the filesystem section is rendered exactly when every filesystem
    of the statistics has a path in the fixed table of names, which holds
    "dagg", "home", "apps" and "images" only; otherwise it raises
    [KeyError] with the name of a filesystem that has none. *)
Theorem lustre_section_names (self : JobSummary)
    (data : gmap string LustreTotals) :
  sd_lustre_stats (summary_data self) = Some data ->
  ((exists text, get_lustre_summary utils self = Ok text) <->
   (forall fs, is_Some (data !! fs) ->
               fs = "dagg" \/ fs = "home" \/ fs = "apps" \/ fs = "images")%string) /\
  ((exists fs, is_Some (data !! fs) /\ fs_names !! fs = None) ->
   exists fs, is_Some (data !! fs) /\ fs_names !! fs = None /\
              get_lustre_summary utils self = Raise (KeyError fs)).
Proof.
  intros Hdata. destruct (lustre_section_fault self data Hdata) as [Hok Hbad].
  split; [|exact Hbad]. split.
  - intros [text Htext] fs Hfs.
    destruct (fs_names !! fs) as [path|] eqn:Hname.
    + apply fs_names_known. eauto.
    + destruct Hbad as (fs' & _ & _ & Hraise); [eauto | congruence].
  - intros Hall. apply Hok. intros fs Hfs. apply fs_names_known, Hall, Hfs.
Qed.

Lemma get_time_summary_eq (self : JobSummary) :
  get_time_summary utils self =
  match sd_elapsed_time (summary_data self), sd_time_limit (summary_data self) with
  | Some elapsed, Some limit =>
      if Qeq_bool limit 0 then Raise ZeroDivisionError
      else Ok (ljust "Time" (heading_width self)
               +:+ percentage_bar utils (elapsed / limit) (Some "arrow"%string)
               +:+ " (" +:+ seconds_to_str utils elapsed +:+ " / "
               +:+ seconds_to_str utils limit +:+ ")")
  | _, _ => Ok (ljust "Time" (heading_width self) +:+ "No data available")
  end.
Proof.
  unfold get_time_summary.
  destruct (sd_elapsed_time (summary_data self)) as [e|],
           (sd_time_limit (summary_data self)) as [l|]; try reflexivity.
  unfold div. destruct (Qeq_bool l 0); reflexivity.
Qed.

(** The frame never fails on the content of a report. *)
Lemma full_summary_of_parts (self : JobSummary) (mem cpu time lustre : string) :
  get_mem_summary utils self = Ok mem ->
  get_cpu_summary utils self = Ok cpu ->
  get_time_summary utils self = Ok time ->
  get_lustre_summary utils self = Ok lustre ->
  exists report, get_full_summary utils self = Ok report.
Proof.
  intros Hm Hc Ht Hl. unfold get_full_summary.
  destruct (content_lines utils self) as [lines|e] eqn:Hlines.
  - destruct (content_lines_split utils self lines Hlines) as [Hne _].
    destruct (frame_ok (title_of self) lines Hne)
      as (longest & _ & _ & _ & _ & Hframe).
    rewrite mbind_ok, Hframe. eexists. reflexivity.
  - unfold content_lines in Hlines.
    rewrite Hm, mbind_ok, Hc, mbind_ok, Ht, mbind_ok, Hl, mbind_ok in Hlines.
    discriminate.
Qed.

Lemma full_summary_parts (self : JobSummary) (report : string) :
  get_full_summary utils self = Ok report ->
  (exists mem, get_mem_summary utils self = Ok mem) /\
  (exists time, get_time_summary utils self = Ok time) /\
  (exists lustre, get_lustre_summary utils self = Ok lustre).
Proof.
  unfold get_full_summary, content_lines.
  destruct (get_mem_summary utils self) as [mem|]; [|discriminate].
  rewrite mbind_ok.
  destruct (get_cpu_summary utils self) as [cpu|]; [|discriminate].
  rewrite mbind_ok.
  destruct (get_time_summary utils self) as [time|]; [|discriminate].
  rewrite mbind_ok.
  destruct (get_lustre_summary utils self) as [lustre|]; [|discriminate].
  intros _. repeat split; eexists; reflexivity.
Qed.

(** X15: the report of an object is rendered exactly when no quotient
    has a zero divisor and every filesystem has a path: a known peak has a
    nonzero requested memory, a known elapsed time has a nonzero time
    limit, and the names of the filesystem statistics are in the table. *)
Theorem full_summary_renders (self : JobSummary) :
  (exists report, get_full_summary utils self = Ok report) <->
  (forall m r, sd_max_mem (summary_data self) = Some m ->
               sd_req_mem (summary_data self) = Some r -> ~ r == 0) /\
  (forall e l, sd_elapsed_time (summary_data self) = Some e ->
               sd_time_limit (summary_data self) = Some l -> ~ l == 0) /\
  (forall data fs, sd_lustre_stats (summary_data self) = Some data ->
                   is_Some (data !! fs) -> is_Some (fs_names !! fs)).
Proof.
  split.
  - intros [report H].
    destruct (full_summary_parts self report H)
      as ([mem Hmem] & [time Htime] & [lustre Hlustre]).
    split; [|split].
    + intros m r Hm Hr. rewrite get_mem_summary_eq, Hm, Hr in Hmem.
      destruct (Qeq_bool r 0) eqn:E; [discriminate|].
      apply Qeq_bool_false, E.
    + intros e l He Hl. rewrite get_time_summary_eq, He, Hl in Htime.
      destruct (Qeq_bool l 0) eqn:E; [discriminate|].
      apply Qeq_bool_false, E.
    + intros data fs Hdata Hfs.
      destruct (fs_names !! fs) as [path|] eqn:Hname; [eauto|].
      destruct (proj2 (lustre_section_fault self data Hdata))
        as (fs' & _ & _ & Hraise); [eauto|congruence].
  - intros (Hmem & Htime & Hnames).
    assert (exists mem, get_mem_summary utils self = Ok mem) as [mem Hm].
    { rewrite get_mem_summary_eq.
      destruct (sd_max_mem (summary_data self)) as [m|]; [|eauto].
      destruct (sd_req_mem (summary_data self)) as [r|]; [|eauto].
      specialize (Hmem m r eq_refl eq_refl). apply Qeq_bool_false in Hmem.
      rewrite Hmem. eauto. }
    assert (exists time, get_time_summary utils self = Ok time) as [time Ht].
    { rewrite get_time_summary_eq.
      destruct (sd_elapsed_time (summary_data self)) as [e|]; [|eauto].
      destruct (sd_time_limit (summary_data self)) as [l|]; [|eauto].
      specialize (Htime e l eq_refl eq_refl). apply Qeq_bool_false in Htime.
      rewrite Htime. eauto. }
    assert (exists lustre, get_lustre_summary utils self = Ok lustre)
      as [lustre Hl].
    { destruct (sd_lustre_stats (summary_data self)) as [data|] eqn:Hdata.
      - apply (proj1 (lustre_section_fault self data Hdata)).
        intros fs. apply Hnames. reflexivity.
      - unfold get_lustre_summary. rewrite Hdata. eauto. }
    destruct (get_cpu_summary_total utils self) as [cpu Hc].
    exact (full_summary_of_parts self mem cpu time lustre Hm Hc Ht Hl).
Qed.

(** X16: a constructed summary of a record with a time limit of 0 is
    never rendered: the time line divides the elapsed time by it, and the
    report raises [ZeroDivisionError]. *)
Theorem zero_time_limit_report (db : SlurmDb) (job_id : string)
    (iq : option InfluxQuery) (s : JobSummary) :
  outcome (init db job_id iq) = Ok s ->
  time_limit (db_data s) == 0 ->
  get_time_summary utils s = Raise ZeroDivisionError /\
  get_full_summary utils s = Raise ZeroDivisionError.
Proof.
  intros H Hzero. destruct (init_times _ _ _ _ H) as [He Hl].
  assert (Htime : get_time_summary utils s = Raise ZeroDivisionError).
  { rewrite get_time_summary_eq, He, Hl.
    assert (Hq : time_limit (db_data s) * 60 == 0) by (rewrite Hzero; ring).
    rewrite (Qeq_eq_bool _ _ Hq). reflexivity. }
  split; [exact Htime|].
  destruct (init_mem_line utils _ _ _ _ H) as [mem Hm].
  destruct (get_cpu_summary_total utils s) as [cpu Hc].
  unfold get_full_summary, content_lines.
  rewrite Hm, mbind_ok, Hc, mbind_ok, Htime. reflexivity.
Qed.

End RenderFaults.

Section RenderFaultsRun.

Local Open Scope Q_scope.

Lemma lustre_section_names_witness :
  sd_lustre_stats (summary_data MoreFixtures.scratch_summary)
    = Some (match sd_lustre_stats (summary_data MoreFixtures.scratch_summary) with
            | Some data => data
            | None => ∅
            end) /\
  exists fs, fs_names !! fs = None /\
             get_lustre_summary Fixtures.plain_utils MoreFixtures.scratch_summary
               = Raise (KeyError fs).
Proof.
  assert (H : sd_lustre_stats (summary_data MoreFixtures.scratch_summary)
    = Some (match sd_lustre_stats (summary_data MoreFixtures.scratch_summary) with
            | Some data => data
            | None => ∅
            end)) by reflexivity.
  split; [exact H|].
  destruct (proj2 (lustre_section_names Fixtures.plain_utils
                     MoreFixtures.scratch_summary _ H))
    as (fs & _ & Hnone & Hraise).
  - exists "scratch"%string. split; vm_compute; eauto.
  - exists fs. split; assumption.
Defined.

Lemma full_summary_renders_witness :
  exists report,
    get_full_summary Fixtures.plain_utils Fixtures.completed_summary = Ok report.
Proof.
  apply full_summary_renders. split; [|split].
  - intros m r [= <-] [= <-]. vm_compute. discriminate.
  - intros e l [= <-] [= <-]. vm_compute. discriminate.
  - intros data fs [=].
Defined.

Lemma zero_time_limit_report_witness :
  outcome (init MoreFixtures.wider_db "6006" None)
    = Ok MoreFixtures.unlimited_summary /\
  time_limit (db_data MoreFixtures.unlimited_summary) == 0 /\
  get_full_summary Fixtures.plain_utils MoreFixtures.unlimited_summary
    = Raise ZeroDivisionError.
Proof.
  assert (H : outcome (init MoreFixtures.wider_db "6006" None)
              = Ok MoreFixtures.unlimited_summary) by (vm_compute; reflexivity).
  assert (Hz : time_limit (db_data MoreFixtures.unlimited_summary) == 0)
    by reflexivity.
  split; [exact H|]. split; [exact Hz|].
  exact (proj2 (zero_time_limit_report Fixtures.plain_utils _ _ _ _ H Hz)).
Defined.

End RenderFaultsRun.

(** ** The sections of the report *)

Section ReportSections.

Variable utils : Helpers.

Lemma join_snoc (sep : string) (l : list string) (x : string) :
  l <> [] -> join sep (l ++ [x]) = join sep l +:+ sep +:+ x.
Proof.
  induction l as [|a l IH]; [congruence|]. intros _.
  destruct l as [|b l]; [reflexivity|].
  change (join sep ((a :: b :: l) ++ [x]))
    with (a +:+ sep +:+ join sep ((b :: l) ++ [x])).
  change (join sep (a :: b :: l)) with (a +:+ sep +:+ join sep (b :: l)).
  rewrite IH by discriminate. rewrite !append_assoc. reflexivity.
Qed.

(** X17: the warnings section is a single newline when there is no
    warning; otherwise it is the header "Warnings:" followed by one
    bulleted line per warning, in the order of the list, and a newline. *)
Theorem warnings_section_lines (self : JobSummary) :
  (sd_warnings (summary_data self) = None
   \/ sd_warnings (summary_data self) = Some [] ->
   get_warnings_summary self = String nl "") /\
  (forall ws, sd_warnings (summary_data self) = Some ws -> ws <> [] ->
     (forall w, In w ws -> contains nl w = false) ->
     split nl (get_warnings_summary self)
       = "Warnings:" :: map (fun w => "  - " +:+ w) ws ++ [""]).
Proof.
  unfold get_warnings_summary. split.
  - intros [-> | ->]; reflexivity.
  - intros ws -> Hne Hclean. destruct ws as [|w ws]; [congruence|].
    set (body := ["Warnings:"] ++ map (fun w => "  - " +:+ w) (w :: ws)).
    change (split nl (join (String nl "") body +:+ String nl "" +:+ "")
            = body ++ [""]).
    rewrite <- (join_snoc (String nl "") body "") by discriminate.
    unfold body. apply split_join; [discriminate|].
    intros line Hin. apply in_app_iff in Hin.
    destruct Hin as [[<-|Hin]|[<-|[]]]; [reflexivity| |reflexivity].
    apply in_map_iff in Hin. destruct Hin as (w' & <- & Hw').
    rewrite contains_append, (Hclean w' Hw'). reflexivity.
Qed.

Lemma rstrip_keeps (c a : ascii) (s : string) :
  Ascii.eqb a c = false -> rstrip c (String a s) = String a (rstrip c s).
Proof.
  intros H. cbn [rstrip]. destruct (rstrip c s); [rewrite H|]; reflexivity.
Qed.

Lemma rstrip_app_clean (c : ascii) (p s : string) :
  contains c p = false -> rstrip c (p +:+ s) = p +:+ rstrip c s.
Proof.
  induction p as [|a p IH]; [reflexivity|]. intros H.
  cbn [contains] in H. apply orb_false_iff in H. destruct H as [Ha Hp].
  change (String a p +:+ s) with (String a (p +:+ s)).
  rewrite (rstrip_keeps c a _ Ha), (IH Hp). reflexivity.
Qed.

Lemma split_app_clean (sep : ascii) (p s : string) :
  contains sep p = false ->
  exists w ws, split sep s = w :: ws /\ split sep (p +:+ s) = (p +:+ w) :: ws.
Proof.
  induction p as [|a p IH]; intros H.
  - destruct (split sep s) as [|w ws] eqn:E;
      [exfalso; exact (split_nonempty sep s E)|].
    exists w, ws. split; [reflexivity | exact E].
  - cbn [contains] in H. apply orb_false_iff in H. destruct H as [Ha Hp].
    destruct (IH Hp) as (w & ws & Hs & Hps). exists w, ws.
    split; [exact Hs|].
    change (String a p +:+ s) with (String a (p +:+ s)).
    cbn [split]. rewrite Ha, Hps. reflexivity.
Qed.

(** After [rstrip] the last part of a split is empty only when the whole
    string is. *)
Lemma rstrip_last_part (c : ascii) (s : string) :
  last (split c (rstrip c s)) = Some EmptyString -> rstrip c s = EmptyString.
Proof.
  induction s as [|a s IH]; [reflexivity|]. cbn [rstrip].
  destruct (rstrip c s) as [|b r] eqn:Er.
  - destruct (Ascii.eqb a c) eqn:Ea; [reflexivity|].
    cbn [split]. rewrite Ea. cbn [split last]. discriminate.
  - intros Hlast. exfalso.
    assert (Hr : last (split c (String b r)) <> Some EmptyString).
    { intros H. specialize (IH H). discriminate. }
    apply Hr. clear IH Hr.
    remember (String b r) as t eqn:Et. clear Et Er.
    cbn [split] in Hlast.
    destruct (split c t) as [|w ws] eqn:Es;
      [exfalso; exact (split_nonempty c t Es)|].
    destruct (Ascii.eqb a c).
    + rewrite last_cons in Hlast.
      destruct (last (w :: ws)) eqn:El; [exact Hlast|].
      apply last_None in El. discriminate.
    + rewrite last_cons in Hlast |- *.
      destruct (last ws); [exact Hlast | discriminate].
Qed.

(** X18: the content of a report starts with the memory line, whose first
    line begins with the label "Memory (RAM)", and does not end with an
    empty line: the newlines that close the last sections are stripped. *)
Theorem content_without_blank_ends (self : JobSummary) (lines : list string) :
  content_lines utils self = Ok lines ->
  (exists tail rest, lines = ("Memory (RAM)" +:+ tail) :: rest) /\
  last lines <> Some EmptyString.
Proof.
  unfold content_lines.
  destruct (get_mem_summary utils self) as [mem|] eqn:Hmem;
    [rewrite mbind_ok | discriminate].
  destruct (get_cpu_summary utils self) as [cpu|];
    [rewrite mbind_ok | discriminate].
  destruct (get_time_summary utils self) as [time|];
    [rewrite mbind_ok | discriminate].
  destruct (get_lustre_summary utils self) as [lustre|];
    [rewrite mbind_ok | discriminate].
  cbv zeta. intros [= <-].
  assert (Hlabel : exists body, mem = "Memory (RAM)" +:+ body).
  { unfold get_mem_summary in Hmem.
    destruct (match sd_max_mem (summary_data self),
                    sd_req_mem (summary_data self) with
              | Some max_mem, Some req_mem => _
              | _, _ => _
              end) as [line|]; [|discriminate].
    rewrite mbind_ok in Hmem. injection Hmem as <-.
    unfold ljust. rewrite append_assoc. eexists. reflexivity. }
  destruct Hlabel as [body ->].
  rewrite (append_assoc "Memory (RAM)" body).
  set (text := body +:+ _).
  unfold strip.
  change (lstrip nl ("Memory (RAM)" +:+ text)) with ("Memory (RAM)" +:+ text).
  rewrite (rstrip_app_clean nl "Memory (RAM)" text eq_refl).
  split.
  - destruct (split_app_clean nl "Memory (RAM)" (rstrip nl text) eq_refl)
      as (w & ws & _ & ->).
    exists w, ws. reflexivity.
  - rewrite <- (rstrip_app_clean nl "Memory (RAM)" text eq_refl).
    intros Hlast. apply rstrip_last_part in Hlast.
    rewrite (rstrip_app_clean nl "Memory (RAM)" text eq_refl) in Hlast.
    discriminate Hlast.
Qed.

End ReportSections.

Section ReportSectionsRun.

Lemma warnings_section_lines_witness :
  sd_warnings (summary_data Fixtures.completed_summary)
    = Some ["Too much memory requested"] /\
  split nl (get_warnings_summary Fixtures.completed_summary)
    = "Warnings:" :: map (fun w => "  - " +:+ w) ["Too much memory requested"]
      ++ [""].
Proof.
  assert (H : sd_warnings (summary_data Fixtures.completed_summary)
              = Some ["Too much memory requested"]) by reflexivity.
  split; [exact H|].
  apply (proj2 (warnings_section_lines Fixtures.completed_summary) _ H).
  - discriminate.
  - intros w [<-|[]]. reflexivity.
Defined.

Lemma content_without_blank_ends_witness :
  exists lines,
    content_lines Fixtures.plain_utils Fixtures.completed_summary = Ok lines /\
    last lines <> Some EmptyString.
Proof.
  destruct (content_lines Fixtures.plain_utils Fixtures.completed_summary)
    as [lines|e] eqn:H.
  - exists lines. split; [reflexivity|].
    exact (proj2 (content_without_blank_ends Fixtures.plain_utils
                    Fixtures.completed_summary lines H)).
  - vm_compute in H. discriminate H.
Defined.

End ReportSectionsRun.

(** ** memory.py *)

Section MemoryModule.

Local Open Scope Q_scope.

(** X19: [get_max_mem] sends the one query of the job and reads the first
    record of the first table only: it returns null exactly when the query
    returns no table, raises [IndexError] on a first table without
    records, returns the value of that record times 1024**2 otherwise,
    and passes on a failure of the query. *)
Theorem get_max_mem_cases (query : string -> result (list Memory.FluxTable))
    (job_id : string) :
  (Memory.get_max_mem query job_id = Ok None <->
   query (Memory.job_query job_id) = Ok []) /\
  (forall table tables,
     query (Memory.job_query job_id) = Ok (table :: tables) ->
     Memory.get_max_mem query job_id =
       match Memory.records table with
       | [] => Raise IndexError
       | record :: _ => Ok (Some (Memory.get_value record * 1024 ^ 2))
       end) /\
  (forall e, query (Memory.job_query job_id) = Raise e ->
     Memory.get_max_mem query job_id = Raise e).
Proof.
  unfold Memory.get_max_mem.
  destruct (query (Memory.job_query job_id)) as [[|table tables]|e].
  - split; [split; reflexivity|]. split; [discriminate | discriminate].
  - split; [|split; [|discriminate]].
    + rewrite mbind_ok. cbn [length Z.of_nat Z.ltb Z.compare first_item].
      rewrite mbind_ok.
      split; [|discriminate].
      destruct (Memory.records table); cbn [first_item]; discriminate.
    + intros t ts [= <- <-]. rewrite mbind_ok.
      cbn [length Z.of_nat Z.ltb Z.compare first_item]. rewrite mbind_ok.
      destruct (Memory.records table); reflexivity.
  - split; [split; discriminate|]. split; [discriminate|].
    intros e' [= <-]. reflexivity.
Qed.

Lemma get_max_mem_cases_witness :
  Fixtures.empty_query (Memory.job_query "3003") = Ok [] /\
  Memory.get_max_mem Fixtures.empty_query "3003" = Ok None.
Proof.
  assert (H : Fixtures.empty_query (Memory.job_query "3003") = Ok [])
    by reflexivity.
  split; [exact H|].
  exact (proj2 (proj1 (get_max_mem_cases Fixtures.empty_query "3003")) H).
Defined.

(** X20: [get_req_mem] of a sacct row raises [KeyError] for a missing
    "req_mem" or "req_nodes" entry, the error of [int] for a node count it
    does not read, [ZeroDivisionError] for a node count that reads as 0,
    and otherwise returns the requested bytes divided by the node count. *)
Theorem sacct_req_mem_cases (bytesize : string -> result Q)
    (sacct_data : gmap string string) :
  (sacct_data !! "req_mem"%string = None ->
   Memory.get_req_mem bytesize sacct_data = Raise (KeyError "req_mem")) /\
  (forall text req_mem,
     sacct_data !! "req_mem"%string = Some text ->
     bytesize text = Ok req_mem ->
     (sacct_data !! "req_nodes"%string = None ->
      Memory.get_req_mem bytesize sacct_data = Raise (KeyError "req_nodes")) /\
     (forall nodes_text nodes,
        sacct_data !! "req_nodes"%string = Some nodes_text ->
        int nodes_text = Ok nodes ->
        (nodes = 0%Z ->
         Memory.get_req_mem bytesize sacct_data = Raise ZeroDivisionError) /\
        (nodes <> 0%Z ->
         Memory.get_req_mem bytesize sacct_data
           = Ok (req_mem / inject_Z nodes))) /\
     (forall nodes_text e,
        sacct_data !! "req_nodes"%string = Some nodes_text ->
        int nodes_text = Raise e ->
        Memory.get_req_mem bytesize sacct_data = Raise e)).
Proof.
  split.
  - intros H. unfold Memory.get_req_mem, getitem. rewrite H. reflexivity.
  - intros text req_mem Htext Hbytes. split.
    + intros H. unfold Memory.get_req_mem, getitem.
      rewrite Htext, mbind_ok, Hbytes, mbind_ok, H. reflexivity.
    + split.
      * intros nodes_text nodes Hnodes Hint.
        rewrite (sacct_get_req_mem bytesize sacct_data text nodes_text req_mem
                   nodes Htext Hbytes Hnodes Hint).
        split.
        -- intros ->. reflexivity.
        -- intros Hne.
           destruct (Z.eqb_spec nodes 0); [contradiction | reflexivity].
      * intros nodes_text e Hnodes Hint. unfold Memory.get_req_mem, getitem.
        rewrite Htext, mbind_ok, Hbytes, mbind_ok, Hnodes, mbind_ok, Hint.
        reflexivity.
Qed.

End MemoryModule.

Section MemoryModuleRun.

Local Open Scope Q_scope.

Lemma sacct_req_mem_cases_witness :
  ({[ "req_mem"%string := "4G"%string; "req_nodes"%string := "0"%string ]}
     : gmap string string) !! "req_mem"%string = Some "4G"%string /\
  Memory.get_req_mem (fun _ => Ok 4294967296)
    {[ "req_mem"%string := "4G"%string; "req_nodes"%string := "0"%string ]}
    = Raise ZeroDivisionError.
Proof.
  assert (H1 : ({[ "req_mem"%string := "4G"%string;
                   "req_nodes"%string := "0"%string ]}
                  : gmap string string) !! "req_mem"%string = Some "4G"%string)
    by (vm_compute; reflexivity).
  split; [exact H1|].
  apply (proj1 (proj1 (proj2 (proj2 (sacct_req_mem_cases
                                        (fun _ => Ok 4294967296) _)
                                "4G"%string 4294967296 H1 eq_refl))
                 "0"%string 0%Z ltac:(vm_compute; reflexivity) eq_refl)).
  reflexivity.
Defined.

(** A grouped node count is read as its number, "0_0" as zero, and a node
    count led by the separator character 28 is not read. *)
Example sacct_node_spellings :
  Memory.get_req_mem (fun _ => Ok 4294967296)
    {[ "req_mem"%string := "4G"%string; "req_nodes"%string := "1_6"%string ]}
  = Ok (4294967296 / 16) /\
  Memory.get_req_mem (fun _ => Ok 4294967296)
    {[ "req_mem"%string := "4G"%string; "req_nodes"%string := "0_0"%string ]}
  = Raise ZeroDivisionError /\
  Memory.get_req_mem (fun _ => Ok 4294967296)
    {[ "req_mem"%string := "4G"%string;
       "req_nodes"%string := String (ascii_of_nat 28) "4" ]}
  = Raise ValueError.
Proof. repeat split; vm_compute; reflexivity. Qed.

End MemoryModuleRun.

(** ** memory.py: the printed summary *)

Section PrintedSummary.

Local Open Scope Q_scope.

Variable humansize : Q -> string.
Variable format_1f : Q -> string.

(** X21: [print_mem_summary] always writes the header and the requested
    memory first.  It ends normally, with one more line, when the peak is
    null or the requested memory is nonzero; with a known peak and a
    requested memory of 0 it raises [ZeroDivisionError] after these two
    lines. *)
Theorem print_mem_summary_lines (max_mem : option Q) (requested_mem : Q) :
  let run := MemoryPrint.print_mem_summary humansize format_1f max_mem requested_mem in
  let head := [ MemoryPrint.Print "Memory (RAM):";
                MemoryPrint.IndentPrint
                  ("Requested: " +:+ humansize requested_mem) ] in
  (max_mem = None ->
   run = MemoryPrint.Printed
           (head ++ [MemoryPrint.IndentPrint "No memory usage data available"])
           (Ok tt)) /\
  (forall peak, max_mem = Some peak -> ~ requested_mem == 0 ->
   run = MemoryPrint.Printed
           (head ++ [MemoryPrint.IndentPrint
                       ("Peak:      " +:+ humansize peak +:+ " ("
                        +:+ format_1f (100 * peak / requested_mem) +:+ "%)")])
           (Ok tt)) /\
  (forall peak, max_mem = Some peak -> requested_mem == 0 ->
   run = MemoryPrint.Printed head (Raise ZeroDivisionError)) /\
  (MemoryPrint.ending run = Ok tt <->
   max_mem = None \/ ~ requested_mem == 0).
Proof.
  intros run head. unfold run, MemoryPrint.print_mem_summary. fold head.
  split; [|split; [|split]].
  - intros ->. reflexivity.
  - intros peak -> Hnz. rewrite (div_nonzero _ _ Hnz). reflexivity.
  - intros peak -> Hz. rewrite (div_zero _ _ Hz). reflexivity.
  - destruct max_mem as [peak|]; [|split; auto].
    destruct (Qeq_dec requested_mem 0) as [Hz|Hnz].
    + rewrite (div_zero _ _ Hz). split; [discriminate|].
      intros [H|H]; [discriminate | contradiction].
    + rewrite (div_nonzero _ _ Hnz). split; auto.
Qed.

End PrintedSummary.

Section PrintedSummaryRun.

Local Open Scope Q_scope.

Lemma print_mem_summary_lines_witness :
  Some 1073741824 = Some 1073741824 /\ (0 : Q) == 0 /\
  MemoryPrint.print_mem_summary (fun _ => "1.0G"%string) (fun _ => "0.0"%string)
    (Some 1073741824) 0
  = MemoryPrint.Printed
      [ MemoryPrint.Print "Memory (RAM):";
        MemoryPrint.IndentPrint ("Requested: " +:+ "1.0G") ]
      (Raise ZeroDivisionError).
Proof.
  assert (H1 : Some 1073741824 = Some 1073741824) by reflexivity.
  assert (H2 : (0 : Q) == 0) by reflexivity.
  split; [exact H1|]. split; [exact H2|].
  exact (proj1 (proj2 (proj2 (print_mem_summary_lines
                  (fun _ => "1.0G"%string) (fun _ => "0.0"%string)
                  (Some 1073741824) 0))) 1073741824 H1 H2).
Defined.

End PrintedSummaryRun.

(** ** Filesystems the renderer does not know *)

Section UnknownFilesystem.

Local Open Scope Q_scope.

Variable utils : Helpers.

(** The filesystem statistics of a constructed summary have the keys of
    the gateway's result. *)
Lemma init_lustre_keys (db : SlurmDb) (job_id : string) (gateway : InfluxQuery)
    (s : JobSummary) (data : lustre_data) :
  outcome (init db job_id (Some gateway)) = Ok s ->
  get_lustre_jobstats gateway (influxid s) = Ok data ->
  exists stats,
    sd_lustre_stats (summary_data s) = Some stats /\
    forall fs, is_Some (stats !! fs) <-> is_Some (data !! fs).
Proof.
  intros H Hdata. apply init_ok in H.
  destruct H as (raw & record & req_mem & max_mem & avg_cpu & lustre & ws & H).
  cbv zeta in H. destruct H as (_ & _ & _ & _ & _ & Hlus & _ & -> & _).
  cbn [set_warnings set_summary_data collect summary_data sd_lustre_stats
       influxid new_object] in *.
  unfold get_lustre_stats in Hlus. cbn [new_object influxquery influxid] in Hlus.
  rewrite outcome_tbind in Hlus. cbn [calling outcome] in Hlus.
  rewrite Hdata, mbind_ok, outcome_tbind in Hlus. cbn [pure outcome] in Hlus.
  pose proof (lustre_loop data data) as Hloop.
  destruct (map_fold _ _ data) as [stats|e]; [|discriminate].
  rewrite mbind_ok in Hlus. injection Hlus as <-.
  exists stats. split; [reflexivity|]. intros fs. specialize (Hloop fs).
  destruct (data !! fs) as [entry|].
  - destruct Hloop as (totals & _ & ->). split; eauto.
  - rewrite Hloop. split; intros [x Hx]; discriminate.
Qed.

(** X22: when the gateway reports a filesystem that has no entry in the
    table of names, the constructor still succeeds but the report does
    not: the filesystem section raises [KeyError] with such a name, and
    so does the whole report unless the time line has failed before it. *)
Theorem unknown_filesystem_report (db : SlurmDb) (job_id : string)
    (gateway : InfluxQuery) (s : JobSummary) (data : lustre_data) :
  outcome (init db job_id (Some gateway)) = Ok s ->
  get_lustre_jobstats gateway (influxid s) = Ok data ->
  (exists fs, is_Some (data !! fs) /\ fs_names !! fs = None) ->
  exists fs,
    is_Some (data !! fs) /\ fs_names !! fs = None /\
    get_lustre_summary utils s = Raise (KeyError fs) /\
    (~ time_limit (db_data s) == 0 ->
     get_full_summary utils s = Raise (KeyError fs)).
Proof.
  intros H Hdata (fs & Hfs & Hnone).
  destruct (init_lustre_keys db job_id gateway s data H Hdata)
    as (stats & Hstats & Hkeys).
  destruct (proj2 (lustre_section_fault utils s stats Hstats))
    as (fs' & Hfs' & Hnone' & Hraise).
  { exists fs. split; [apply Hkeys, Hfs | exact Hnone]. }
  exists fs'. split; [apply Hkeys, Hfs'|]. split; [exact Hnone'|].
  split; [exact Hraise|]. intros Hlimit.
  destruct (init_mem_line utils _ _ _ _ H) as [mem Hm].
  destruct (get_cpu_summary_total utils s) as [cpu Hc].
  destruct (init_times _ _ _ _ H) as [He Hl].
  assert (Ht : exists time, get_time_summary utils s = Ok time).
  { rewrite get_time_summary_eq, He, Hl.
    assert (Hq : ~ time_limit (db_data s) * 60 == 0).
    { intros Hq. apply Hlimit.
      setoid_replace (time_limit (db_data s))
        with (time_limit (db_data s) * 60 / 60) using relation Qeq by field.
      rewrite Hq. reflexivity. }
    apply Qeq_bool_false in Hq. rewrite Hq. eexists. reflexivity. }
  destruct Ht as [time Ht].
  unfold get_full_summary, content_lines.
  rewrite Hm, mbind_ok, Hc, mbind_ok, Ht, mbind_ok, Hraise. reflexivity.
Qed.

End UnknownFilesystem.

Section UnknownFilesystemRun.

Lemma unknown_filesystem_report_witness :
  outcome (init Fixtures.sample_db "3003" (Some MoreFixtures.scratch_gateway))
    = Ok MoreFixtures.scratch_summary /\
  get_lustre_jobstats MoreFixtures.scratch_gateway
    (influxid MoreFixtures.scratch_summary) = Ok MoreFixtures.scratch_lustre /\
  exists fs,
    fs_names !! fs = None /\
    get_lustre_summary Fixtures.plain_utils MoreFixtures.scratch_summary
      = Raise (KeyError fs).
Proof.
  assert (H : outcome (init Fixtures.sample_db "3003"
                         (Some MoreFixtures.scratch_gateway))
              = Ok MoreFixtures.scratch_summary) by (vm_compute; reflexivity).
  assert (Hd : get_lustre_jobstats MoreFixtures.scratch_gateway
                 (influxid MoreFixtures.scratch_summary)
               = Ok MoreFixtures.scratch_lustre) by reflexivity.
  split; [exact H|]. split; [exact Hd|].
  destruct (unknown_filesystem_report Fixtures.plain_utils _ _ _ _ _ H Hd)
    as (fs & _ & Hnone & Hraise & _).
  - exists "scratch"%string. split; vm_compute; eauto.
  - exists fs. split; assumption.
Defined.

End UnknownFilesystemRun.
